(** * pyknp: the KNP front end and its Analyzer

    A shallow embedding of [pyknp/knp/knp.py] and [pyknp/utils/analyzer.py].

    Python [str] values are modelled as [string], read as the UTF-8 encoding
    of the text.  Every separator the code splits on is an ASCII character,
    and the byte-wise lexicographic order of UTF-8 coincides with Python's
    code-point order, so [split], [startswith], [==] and [sorted] behave on
    the encoded strings as they do on the Python text. *)

From Stdlib Require Import String Ascii List Bool Arith ZArith Lia.
From Stdlib Require Import Permutation Sorted.
Import ListNotations.
Open Scope string_scope.

(** ** Exceptions and results *)

(** The exceptions the modelled code can raise.  [IndexError i] records the
    index that was out of range, [TypeError m], [AttributeError m] and
    [Exception m] carry the message, [External m] stands for whatever a
    collaborator outside the sources raises. *)
Inductive exn : Type :=
| IndexError (i : nat)
| TypeError (msg : string)
| AttributeError (msg : string)
| Exception (msg : string)
| External (msg : string).

Definition result (A : Type) : Type := (exn + A)%type.

Definition ret {A : Type} (a : A) : result A := inr a.
Definition raise {A : Type} (e : exn) : result A := inl e.
Definition bind {A B : Type} (m : result A) (k : A -> result B) : result B :=
  match m with
  | inl e => inl e
  | inr a => k a
  end.

Notation "x <- m ;; k" := (bind m (fun x => k))
  (at level 61, m at next level, right associativity).

(** ** Python string and list primitives *)

Module Py.

(** [s.split(sep)] for a one-character separator. *)
Fixpoint split (sep : ascii) (s : string) : list string :=
  match s with
  | EmptyString => [EmptyString]
  | String c s' =>
      if Ascii.eqb c sep then EmptyString :: split sep s'
      else match split sep s' with
           | [] => [String c EmptyString]
           | w :: ws => String c w :: ws
           end
  end.

(** [sep.join(l)] *)
Definition join (sep : string) (l : list string) : string := String.concat sep l.

(** [s.startswith(p)] *)
Definition startswith (p s : string) : bool := String.prefix p s.

(** [l[i]] for a non-negative literal index [i]. *)
Definition index {A : Type} (l : list A) (i : nat) : result A :=
  match nth_error l i with
  | Some x => ret x
  | None => raise (IndexError i)
  end.

(** [l[-1]] on a list of strings.  The code applies it only to the value of
    a [split], which is never empty ([split_not_nil] below), so the
    [IndexError] of the empty list cannot occur and the default is unused. *)
Definition last (l : list string) : string := List.last l EmptyString.

End Py.

Definition LF : ascii := Ascii.ascii_of_nat 10.
Definition TAB : ascii := Ascii.ascii_of_nat 9.
Definition nl : string := String LF EmptyString.
Definition dquote : string := String (Ascii.ascii_of_nat 34) EmptyString.

(** ** Dynamically typed values and keyword calls *)

(** The values that travel through constructor arguments unchanged. *)
Inductive pyval : Type :=
| PNone
| PStr (s : string)
| PInt (z : Z)
| PBool (b : bool)
| PList (l : list string).

Definition is_not_None (v : pyval) : bool :=
  match v with
  | PNone => false
  | _ => true
  end.

(** The keyword arguments of a call, in call order. *)
Definition kwargs : Type := list (string * pyval).

Fixpoint kw_lookup (kw : kwargs) (name : string) : option pyval :=
  match kw with
  | [] => None
  | (k, v) :: kw' => if String.eqb k name then Some v else kw_lookup kw' name
  end.

Definition kw_default (kw : kwargs) (name : string) (default : pyval) : pyval :=
  match kw_lookup kw name with
  | Some v => v
  | None => default
  end.

(** The first keyword of the call that names no parameter of the callee. *)
Definition kw_unexpected (params : list string) (kw : kwargs) : option string :=
  find (fun k => negb (existsb (String.eqb k) params)) (map fst kw).

(** ** The world outside the two source files *)

(** What the code imports and calls but the sources do not contain: the
    [Socket] and [Subprocess] classes of [pyknp.utils.process], the [Juman],
    [BList] and [JUMAN_FORMAT] names of the [pyknp] package, and the
    operating-system queries of [os.path] and [distutils.spawn].  They are
    parameters of the development.  [World] is the state they act on; a
    constructor or a query returns the new world and either a value or the
    exception it raised.  [str_split] is Python's [str.split()] with no
    argument (split on runs of whitespace). *)
Class Externals : Type := {
  World : Type;
  Socket : Type;
  Subprocess : Type;
  Juman : Type;
  BList : Type;
  JUMAN_FORMAT : Type;
  DEFAULT : JUMAN_FORMAT;
  LATTICE_ALL : JUMAN_FORMAT;
  format_eqb : JUMAN_FORMAT -> JUMAN_FORMAT -> bool;
  format_eqb_eq : forall a b, format_eqb a b = true <-> a = b;
  Socket_new : pyval -> pyval -> pyval -> World -> World * result Socket;
  Subprocess_new : pyval -> World -> World * result Subprocess;
  Socket_query : Socket -> string -> string -> World -> World * result string;
  Subprocess_query : Subprocess -> string -> string -> World -> World * result string;
  Juman_new : kwargs -> World -> World * result Juman;
  BList_new : string -> string -> JUMAN_FORMAT -> result BList;
  isfile : string -> World -> bool;
  expanduser : string -> World -> string;
  find_executable : string -> World -> option string;
  str_split : string -> list string
}.

(** The calls that reach the outside world, recorded in the order they are
    made. *)
Inductive event : Type :=
| NewSocket (server port socket_option : pyval)
| NewSubprocess (command : pyval)
| SocketQuery (input_str pattern : string)
| SubprocessQuery (input_str pattern : string)
| NewJuman (kw : kwargs)
| IsFile (path : string)
| FindExecutable (command : string).

Definition is_construction (ev : event) : bool :=
  match ev with
  | NewSocket _ _ _ | NewSubprocess _ => true
  | _ => false
  end.

(** The request a query event carries. *)
Definition request_of (ev : event) : option (string * string) :=
  match ev with
  | SocketQuery i p | SubprocessQuery i p => Some (i, p)
  | _ => None
  end.

(** The requests of the query events of a trace, in order. *)
Definition requests_of (evs : list event) : list (string * string) :=
  flat_map (fun ev => match request_of ev with
                      | Some r => [r]
                      | None => []
                      end) evs.

Section Effects.
Context {E : Externals}.

(** The state threaded through effectful code: the outside world and the
    trace of calls made so far. *)
Record St : Type := mkSt {
  world : World;
  trace : list event
}.

(** A computation that may change the state and may raise. *)
Definition M (A : Type) : Type := St -> St * result A.

Definition mret {A : Type} (a : A) : M A := fun st => (st, ret a).
Definition mraise {A : Type} (e : exn) : M A := fun st => (st, raise e).
Definition mbind {A B : Type} (m : M A) (k : A -> M B) : M B :=
  fun st =>
    match m st with
    | (st', inl e) => (st', inl e)
    | (st', inr a) => k a st'
    end.

(** Run an outside call [f] and record [ev]. *)
Definition call {A : Type} (ev : event) (f : World -> World * result A) : M A :=
  fun st =>
    let (w, r) := f (world st) in
    ({| world := w; trace := trace st ++ [ev] |}, r).

(** Read the outside world with [f] and record [ev]. *)
Definition ask {A : Type} (ev : event) (f : World -> A) : M A :=
  fun st => ({| world := world st; trace := trace st ++ [ev] |}, ret (f (world st))).

Definition lift {A : Type} (r : result A) : M A := fun st => (st, r).

End Effects.

Notation "x <~ m ;; k" := (mbind m (fun x => k))
  (at level 61, m at next level, right associativity).

(** The method of the tokenizer object that [KNP.parse] calls,
    [Juman.juman_lines(sentence)]; the class is outside the sources like the
    others.  The call acts on the world and leaves no event in the trace. *)
Class Tokenizer {E : Externals} : Type := {
  Juman_juman_lines : Juman -> string -> World -> World * result string
}.

(** ** class Analyzer *)

Module Analyzer.
Section Def.
Context {E : Externals}.

Record t : Type := mk {
  backend : pyval;
  server : pyval;
  port : pyval;
  socket : option Socket;
  socket_option : pyval;
  subprocess : option Subprocess;
  command : pyval
}.

Definition params : list string :=
  ["backend"; "server"; "port"; "socket_option"; "command"].

(** A keyword-only call of [Analyzer]: it binds the keywords to the parameters of
    [__init__(self, backend, server=None, port=None, socket_option=None,
    command=None)], raising [TypeError] for a keyword that names none of them
    or for a missing [backend], and then runs the body. *)
Definition __init__ (kw : kwargs) : result t :=
  match kw_unexpected params kw with
  | Some k =>
      raise (TypeError ("__init__() got an unexpected keyword argument '" ++ k ++ "'"))
  | None =>
      match kw_lookup kw "backend" with
      | None =>
          raise (TypeError "__init__() missing 1 required positional argument: 'backend'")
      | Some b =>
          ret {| backend := b;
                 server := kw_default kw "server" PNone;
                 port := kw_default kw "port" PNone;
                 socket := None;
                 socket_option := kw_default kw "socket_option" PNone;
                 subprocess := None;
                 command := kw_default kw "command" PNone |}
      end
  end.

(** Truth value of an attribute holding [None] or a backend object (the
    backend classes are plain objects, true in a boolean context). *)
Definition truthy {A : Type} (o : option A) : bool :=
  match o with
  | Some _ => true
  | None => false
  end.

Definition set_socket (self : t) (s : Socket) : t :=
  {| backend := backend self; server := server self; port := port self;
     socket := Some s; socket_option := socket_option self;
     subprocess := subprocess self; command := command self |}.

Definition set_subprocess (self : t) (p : Subprocess) : t :=
  {| backend := backend self; server := server self; port := port self;
     socket := socket self; socket_option := socket_option self;
     subprocess := Some p; command := command self |}.

(** The first statement of [query]: build the backend when there is none.
    The object is returned with the state because the assignment to
    [self.socket] or [self.subprocess] outlives an exception raised later. *)
Definition ensure_backend (self : t) (st : St) : St * (t * result unit) :=
  if negb (truthy (socket self)) && negb (truthy (subprocess self)) then
    if is_not_None (server self) then
      match call (NewSocket (server self) (port self) (socket_option self))
                 (Socket_new (server self) (port self) (socket_option self)) st with
      | (st', inl e) => (st', (self, inl e))
      | (st', inr s) => (st', (set_socket self s, ret tt))
      end
    else
      match call (NewSubprocess (command self)) (Subprocess_new (command self)) st with
      | (st', inl e) => (st', (self, inl e))
      | (st', inr p) => (st', (set_subprocess self p, ret tt))
      end
  else (st, (self, ret tt)).

(** [Analyzer.query(input_str, pattern)] *)
Definition query (self : t) (input_str pattern : string) (st : St)
  : St * (t * result string) :=
  match ensure_backend self st with
  | (st1, (self1, inl e)) => (st1, (self1, inl e))
  | (st1, (self1, inr _)) =>
      match socket self1 with
      | Some s =>
          let (st2, r) := call (SocketQuery input_str pattern)
                               (Socket_query s input_str pattern) st1 in
          (st2, (self1, r))
      | None =>
          match subprocess self1 with
          | Some p =>
              let (st2, r) := call (SubprocessQuery input_str pattern)
                                   (Subprocess_query p input_str pattern) st1 in
              (st2, (self1, r))
          | None =>
              (st1, (self1,
                     raise (AttributeError "'NoneType' object has no attribute 'query'")))
          end
      end
  end.

(** A client calling [query] once per request, in order, on one Analyzer,
    keeping each outcome (a response or the exception it caught). *)
Fixpoint queries (self : t) (requests : list (string * string)) (st : St)
  : St * (t * list (result string)) :=
  match requests with
  | [] => (st, (self, []))
  | (input_str, pattern) :: rest =>
      match query self input_str pattern st with
      | (st1, (self1, r)) =>
          match queries self1 rest st1 with
          | (st2, (self2, rs)) => (st2, (self2, r :: rs))
          end
      end
  end.

(** *** Vocabulary for the Analyzer's properties *)

(** The backend object an Analyzer holds, if any: [query] tests the socket
    first. *)
Inductive handle : Type :=
| SocketHandle (s : Socket)
| SubprocessHandle (p : Subprocess).

Definition held (self : t) : option handle :=
  match socket self with
  | Some s => Some (SocketHandle s)
  | None =>
      match subprocess self with
      | Some p => Some (SubprocessHandle p)
      | None => None
      end
  end.

(** The constructor the first query calls, chosen by [server], and the
    event of that call. *)
Definition construct (self : t) (w : World) : World * result handle :=
  if is_not_None (server self) then
    match Socket_new (server self) (port self) (socket_option self) w with
    | (w', inl e) => (w', inl e)
    | (w', inr s) => (w', inr (SocketHandle s))
    end
  else
    match Subprocess_new (command self) w with
    | (w', inl e) => (w', inl e)
    | (w', inr p) => (w', inr (SubprocessHandle p))
    end.

Definition construction_event (self : t) : event :=
  if is_not_None (server self)
  then NewSocket (server self) (port self) (socket_option self)
  else NewSubprocess (command self).

Definition install (self : t) (h : handle) : t :=
  match h with
  | SocketHandle s => set_socket self s
  | SubprocessHandle p => set_subprocess self p
  end.

(** A query forwarded to a backend object, and the event of that call. *)
Definition backend_query (h : handle) (input_str pattern : string) (w : World)
  : World * result string :=
  match h with
  | SocketHandle s => Socket_query s input_str pattern w
  | SubprocessHandle p => Subprocess_query p input_str pattern w
  end.

Definition query_event (h : handle) (request : string * string) : event :=
  match h with
  | SocketHandle _ => SocketQuery (fst request) (snd request)
  | SubprocessHandle _ => SubprocessQuery (fst request) (snd request)
  end.

Definition constructions (evs : list event) : list event :=
  filter is_construction evs.

(** The same object with another value of the [backend] attribute. *)
Definition set_backend (self : t) (b : pyval) : t :=
  {| backend := b; server := server self; port := port self;
     socket := socket self; socket_option := socket_option self;
     subprocess := subprocess self; command := command self |}.

End Def.
End Analyzer.

(** ** class KNP *)

Module KNP.

(** *** KNP.lattice2juman_line *)

Definition daihyo : string := "代表表記:".

Definition lattice2juman_line (values : list string) (the_same_mrph_id : bool)
  : result string :=
  v6 <- Py.index values 6 ;;
  v17 <- Py.index values 17 ;;
  let features := ([(daihyo ++ v6)%string] ++ Py.split "|"%char v17)%list in
  v5 <- Py.index values 5 ;;
  v7 <- Py.index values 7 ;;
  v8 <- Py.index values 8 ;;
  v9 <- Py.index values 9 ;;
  v10 <- Py.index values 10 ;;
  v11 <- Py.index values 11 ;;
  v12 <- Py.index values 12 ;;
  v13 <- Py.index values 13 ;;
  v14 <- Py.index values 14 ;;
  v15 <- Py.index values 15 ;;
  v16 <- Py.index values 16 ;;
  let juman_values :=
    [v5; v7; v8; v9; v10; v11; v12; v13; v14; v15; v16;
     dquote ++ Py.join " " features ++ dquote] in
  let juman_line := Py.join " " juman_values in
  ret (if the_same_mrph_id then "@ " ++ juman_line else juman_line).

(** *** KNP.lattice_all2juman_lines *)

(** [defaultdict(list)]: keys in insertion order, each with the list of the
    strings appended so far. *)
Definition ddict : Type := list (string * list string).

(** [d[k].append(x)] *)
Fixpoint dd_append (d : ddict) (k x : string) : ddict :=
  match d with
  | [] => [(k, [x])]
  | (k', xs) :: d' =>
      if String.eqb k' k then (k', (xs ++ [x])%list) :: d'
      else (k', xs) :: dd_append d' k x
  end.

(** The list stored under [k] (empty when [k] is not a key). *)
Fixpoint dd_get (d : ddict) (k : string) : list string :=
  match d with
  | [] => []
  | (k', xs) :: d' => if String.eqb k' k then xs else dd_get d' k
  end.

Definition dd_keys (d : ddict) : list string := map fst d.

(** The loop variables of [lattice_all2juman_lines]. *)
Record conv_state : Type := mkConv {
  comment : string;
  prev_id : string;
  juman_lines : ddict
}.

Definition conv_init : conv_state :=
  {| comment := ""; prev_id := "0"; juman_lines := [] |}.

(** [line.split('|')[-1].split(':')[-1]] *)
Definition rank_field (line : string) : string :=
  Py.last (Py.split ":"%char (Py.last (Py.split "|"%char line))).

(** [ranks.split(';')] *)
Definition line_ranks (line : string) : list string :=
  Py.split ";"%char (rank_field line).

(** The inner loop: [for rank in ranks.split(';'): juman_lines[rank].append(...)] *)
Fixpoint append_ranks (values : list string) (the_same_mrph_id : bool)
  (ranks : list string) (d : ddict) : result ddict :=
  match ranks with
  | [] => ret d
  | rank :: rest =>
      x <- lattice2juman_line values the_same_mrph_id ;;
      append_ranks values the_same_mrph_id rest (dd_append d rank x)
  end.

(** One iteration of the outer loop. *)
Definition conv_step (st : conv_state) (line : string) : result conv_state :=
  if Py.startswith "#" line then
    ret {| comment := line; prev_id := prev_id st; juman_lines := juman_lines st |}
  else if String.eqb line "EOS" then
    ret st
  else
    let values := Py.split TAB line in
    let ranks := rank_field line in
    v1 <- Py.index values 1 ;;
    let the_same_mrph_id := String.eqb v1 (prev_id st) in
    let prev_id' := if negb the_same_mrph_id then v1 else prev_id st in
    d <- append_ranks values the_same_mrph_id (Py.split ";"%char ranks) (juman_lines st) ;;
    ret {| comment := comment st; prev_id := prev_id'; juman_lines := d |}.

Fixpoint conv_loop (st : conv_state) (lines : list string) : result conv_state :=
  match lines with
  | [] => ret st
  | line :: rest => st' <- conv_step st line ;; conv_loop st' rest
  end.

(** Python's order on [(str, str)] tuples: first components first. *)
Definition tuple_leb (a b : string * string) : bool :=
  match String.compare (fst a) (fst b) with
  | Lt => true
  | Eq => String.leb (snd a) (snd b)
  | Gt => false
  end.

(** [sorted(items)]: a stable sort by [tuple_leb]. *)
Fixpoint sorted_insert (a : string * string) (l : list (string * string))
  : list (string * string) :=
  match l with
  | [] => [a]
  | b :: l' => if tuple_leb a b then a :: l else b :: sorted_insert a l'
  end.

Fixpoint sorted (l : list (string * string)) : list (string * string) :=
  match l with
  | [] => []
  | a :: l' => sorted_insert a (sorted l')
  end.

(** ['{0}\n{1}\nEOS'.format(comment, '\n'.join(lines))] *)
Definition block (comment : string) (lines : list string) : string :=
  comment ++ nl ++ Py.join nl lines ++ nl ++ "EOS".

Definition rank2juman_lines (st : conv_state) : list (string * string) :=
  map (fun kv => (fst kv, block (comment st) (snd kv))) (juman_lines st).

Definition lattice_all2juman_lines (lattice_all : string) : result (list string) :=
  st <- conv_loop conv_init (Py.split LF lattice_all) ;;
  ret (map snd (sorted (rank2juman_lines st))).

(** *** Vocabulary for the converter's properties *)

(** A line the loop neither takes as the comment nor skips as the sentence
    end: a morpheme line. *)
Definition is_mrph_line (line : string) : bool :=
  negb (Py.startswith "#" line) && negb (String.eqb line "EOS").

Definition mrph_lines (lattice_all : string) : list string :=
  filter is_mrph_line (Py.split LF lattice_all).

(** The number of tab-separated fields of a line. *)
Definition n_fields (line : string) : nat := List.length (Py.split TAB line).

(** The morpheme identifier, tab field 1. *)
Definition mrph_id (line : string) : string := nth 1 (Py.split TAB line) "".

Definition mrph_ids (lattice_all : string) : list string :=
  map mrph_id (mrph_lines lattice_all).

(** Every morpheme line has the 18 fields the reconstruction reads. *)
Definition well_formed (lattice_all : string) : Prop :=
  Forall (fun line => 18 <= n_fields line) (mrph_lines lattice_all).

(** The rank identifiers of the input, line by line. *)
Definition all_ranks (lattice_all : string) : list string :=
  flat_map line_ranks (mrph_lines lattice_all).

Definition distinct_ranks (lattice_all : string) : list string :=
  nodup string_dec (all_ranks lattice_all).

(** The last comment line of the input, empty when there is none. *)
Definition tracked_comment (lattice_all : string) : string :=
  fold_left (fun c line => if Py.startswith "#" line then line else c)
            (Py.split LF lattice_all) "".

(** The values [the_same_mrph_id] takes along the morpheme lines when the
    loop is entered with [prev_id = prev]. *)
Fixpoint the_same_flags (prev : string) (ids : list string) : list bool :=
  match ids with
  | [] => []
  | id :: rest =>
      let the_same_mrph_id := String.eqb id prev in
      the_same_mrph_id
        :: the_same_flags (if negb the_same_mrph_id then id else prev) rest
  end.

(** The rule as the specification words it: a line is marked iff there is a
    line before it and their identifiers are equal. *)
Fixpoint same_as_previous (prev : option string) (ids : list string) : list bool :=
  match ids with
  | [] => []
  | id :: rest =>
      match prev with
      | None => false
      | Some p => String.eqb id p
      end :: same_as_previous (Some id) rest
  end.

(** The flat line of a morpheme line (empty when it cannot be built). *)
Definition reconstructed (line : string) (flag : bool) : string :=
  match lattice2juman_line (Py.split TAB line) flag with
  | inr x => x
  | inl _ => ""
  end.

(** The flat lines filed under [rank], in source order: each marked line
    once per occurrence of [rank] in its rank list. *)
Definition rank_lines (rank : string) (marked : list (string * bool)) : list string :=
  flat_map (fun lf => repeat (reconstructed (fst lf) (snd lf))
                             (count_occ string_dec (line_ranks (fst lf)) rank))
           marked.

(** The morpheme lines of the input, each with the value of
    [the_same_mrph_id] the loop computes for it. *)
Definition marked_lines (lattice_all : string) : list (string * bool) :=
  combine (mrph_lines lattice_all) (the_same_flags "0" (mrph_ids lattice_all)).

(** The block of a rank, as the last statement builds it. *)
Definition rank_block (lattice_all rank : string) : string :=
  block (tracked_comment lattice_all) (rank_lines rank (marked_lines lattice_all)).

(** Rank identifiers in strictly increasing order. *)
Definition increasing (ranks : list string) : Prop :=
  StronglySorted (fun a b => String.ltb a b = true) ranks.

(** [well_formed] as a test. *)
Definition well_formedb (lattice_all : string) : bool :=
  forallb (fun line => (18 <=? n_fields line)%nat) (mrph_lines lattice_all).

(** Filing one flat line [x] under each rank of a list. *)
Definition file_under (x : string) (ranks : list string) (d : ddict) : ddict :=
  fold_left (fun d r => dd_append d r x) ranks d.

(** A morpheme line too short for the reconstruction, and the index at which
    the loop body fails on it: 1 when the identifier field is missing, else
    6 or 17, the first two fields [lattice2juman_line] reads. *)
Definition malformed (line : string) : bool :=
  is_mrph_line line && (n_fields line <? 18)%nat.

Definition error_site (line : string) : nat :=
  if (n_fields line <? 2)%nat then 1
  else if (n_fields line <=? 6)%nat then 6 else 17.

(** The effect of one iteration that does not raise. *)
Definition step_ok (st : conv_state) (line : string) : conv_state :=
  if Py.startswith "#" line then
    {| comment := line; prev_id := prev_id st; juman_lines := juman_lines st |}
  else if String.eqb line "EOS" then st
  else
    let the_same_mrph_id := String.eqb (mrph_id line) (prev_id st) in
    {| comment := comment st;
       prev_id := if negb the_same_mrph_id then mrph_id line else prev_id st;
       juman_lines := file_under (reconstructed line the_same_mrph_id)
                                 (line_ranks line) (juman_lines st) |}.

(** A string with every pipe replaced by a space. *)
Fixpoint pipes_to_spaces (s : string) : string :=
  match s with
  | EmptyString => EmptyString
  | String c s' =>
      String (if Ascii.eqb c "|"%char then " "%char else c) (pipes_to_spaces s')
  end.

(** The number of flat lines a rank dictionary holds. *)
Definition dd_size (d : ddict) : nat :=
  list_sum (map (fun kv => List.length (snd kv)) d).

(** A string without line feed. *)
Fixpoint one_line (s : string) : bool :=
  match s with
  | EmptyString => true
  | String c s' => negb (Ascii.eqb c LF) && one_line s'
  end.

(** *** KNP.__init__ *)

Section Def.
Context {E : Externals}.

(** The arguments of [KNP(...)]. *)
Record args : Type := mkArgs {
  arg_command : string;
  arg_server : pyval;
  arg_port : pyval;
  arg_timeout : pyval;
  arg_option : string;
  arg_rcfile : string;
  arg_pattern : string;
  arg_jumancommand : pyval;
  arg_jumanrcfile : pyval;
  arg_jumanoption : pyval;
  arg_jumanpp : pyval;
  arg_multithreading : pyval
}.

(** The default values of the signature. *)
Definition defaults : args :=
  {| arg_command := "knp"; arg_server := PNone; arg_port := PInt 31000;
     arg_timeout := PInt 60; arg_option := "-tab"; arg_rcfile := "";
     arg_pattern := "EOS"; arg_jumancommand := PStr "jumanpp";
     arg_jumanrcfile := PStr ""; arg_jumanoption := PStr "";
     arg_jumanpp := PBool true; arg_multithreading := PBool false |}.

Record t : Type := mk {
  command : string;
  server : pyval;
  port : pyval;
  timeout : pyval;
  options : list string;
  rcfile : string;
  pattern : string;
  analyzer : Analyzer.t;
  jumanpp : pyval;
  juman : Juman
}.

(** Truth value of a [str]. *)
Definition nonempty (s : string) : bool :=
  match s with
  | EmptyString => false
  | String _ _ => true
  end.

(** The body of [__init__], with the callee bound to the name [Analyzer]
    passed as [Analyzer_]. *)
Definition init_with (Analyzer_ : kwargs -> result Analyzer.t) (a : args) : M t :=
  let command := arg_command a in
  let server := arg_server a in
  let port := arg_port a in
  let timeout := arg_timeout a in
  let options := str_split (arg_option a) in
  let rcfile := arg_rcfile a in
  let pattern := arg_pattern a in
  analyzer <~
    lift (if is_not_None server then
            Analyzer_ [("backend", PStr "socket"); ("timeout", timeout);
                       ("server", server); ("port", port);
                       ("socket_option", PStr ("RUN -tab -normal" ++ nl))]
          else
            let cmds := ([command] ++ options)%list in
            let cmds := if nonempty rcfile then (cmds ++ ["-r"; rcfile])%list else cmds in
            Analyzer_ [("backend", PStr "subprocess");
                       ("multithreading", arg_multithreading a);
                       ("timeout", timeout); ("command", PList cmds)]) ;;
  let jumanpp := arg_jumanpp a in
  _ <~ (if nonempty rcfile then
          readable <~ ask (IsFile rcfile) (fun w => isfile (expanduser rcfile w) w) ;;
          if negb readable
          then mraise (Exception ("Can't read rcfile (" ++ rcfile ++ ")!"))
          else mret tt
        else mret tt) ;;
  found <~ ask (FindExecutable command) (find_executable command) ;;
  _ <~ (match found with
        | None => mraise (Exception ("Can't find KNP command: " ++ command))
        | Some _ => mret tt
        end) ;;
  let juman_kw :=
    [("command", arg_jumancommand a); ("rcfile", arg_jumanrcfile a);
     ("option", arg_jumanoption a); ("jumanpp", jumanpp);
     ("multithreading", arg_multithreading a)] in
  juman <~ call (NewJuman juman_kw) (Juman_new juman_kw) ;;
  mret {| command := command; server := server; port := port; timeout := timeout;
          options := options; rcfile := rcfile; pattern := pattern;
          analyzer := analyzer; jumanpp := jumanpp; juman := juman |}.

(** [KNP(...)] *)
Definition __init__ (a : args) : M t := init_with Analyzer.__init__ a.

(** *** KNP.parse_juman_result and KNP.reparse_knp_result *)

Definition set_analyzer (self : t) (an : Analyzer.t) : t :=
  {| command := command self; server := server self; port := port self;
     timeout := timeout self; options := options self; rcfile := rcfile self;
     pattern := pattern self; analyzer := an; jumanpp := jumanpp self;
     juman := juman self |}.

(** What [parse_juman_result] returns: one [BList], or a list of them. *)
Inductive parsed : Type :=
| One (blist : BList)
| Many (blists : list BList).

(** [r'^%s$' % self.pattern] *)
Definition full_line (pattern : string) : string := "^" ++ pattern ++ "$".

(** The loop of the lattice-all branch over the converter's blocks; [blists]
    is the list built so far. *)
Fixpoint query_blocks (an : Analyzer.t) (pattern : string) (blocks : list string)
  (blists : list BList) (st : St) : St * (Analyzer.t * result (list BList)) :=
  match blocks with
  | [] => (st, (an, ret blists))
  | juman_lines :: rest =>
      match Analyzer.query an juman_lines (full_line pattern) st with
      | (st1, (an1, inl e)) => (st1, (an1, inl e))
      | (st1, (an1, inr knp_lines)) =>
          match BList_new (knp_lines ++ "EOS" ++ nl) pattern DEFAULT with
          | inl e => (st1, (an1, inl e))
          | inr blist => query_blocks an1 pattern rest (blists ++ [blist])%list st1
          end
      end
  end.

Definition parse_juman_result (self : t) (juman_str : string)
  (juman_format : JUMAN_FORMAT) (st : St) : St * (t * result parsed) :=
  if format_eqb juman_format LATTICE_ALL then
    match lattice_all2juman_lines juman_str with
    | inl e => (st, (self, inl e))
    | inr blocks =>
        match query_blocks (analyzer self) (pattern self) blocks [] st with
        | (st1, (an1, inl e)) => (st1, (set_analyzer self an1, inl e))
        | (st1, (an1, inr blists)) => (st1, (set_analyzer self an1, ret (Many blists)))
        end
    end
  else
    match Analyzer.query (analyzer self) juman_str (full_line (pattern self)) st with
    | (st1, (an1, inl e)) => (st1, (set_analyzer self an1, inl e))
    | (st1, (an1, inr knp_lines)) =>
        (st1, (set_analyzer self an1,
               match BList_new knp_lines (pattern self) juman_format with
               | inl e => inl e
               | inr blist => ret (One blist)
               end))
    end.

Definition reparse_knp_result (self : t) (knp_str : string)
  (juman_format : JUMAN_FORMAT) (st : St) : St * (t * result parsed) :=
  parse_juman_result self knp_str juman_format st.

(** The blocks answered one after the other:
    [served pattern an st blocks blists an' st'] holds when querying the
    Analyzer [an], from the state [st], with each block in turn up to a line
    matching [^pattern$] returns a response every time; [blists] holds, block
    by block and in the same order, the [BList] of the response followed by
    [EOS] and a newline, and [an'] and [st'] are the Analyzer and the state
    after the last query. *)
Inductive served (pattern : string)
  : Analyzer.t -> St -> list string -> list BList -> Analyzer.t -> St -> Prop :=
| served_nil (an : Analyzer.t) (st : St) : served pattern an st [] [] an st
| served_cons (an an1 an' : Analyzer.t) (st st1 st' : St) (b response : string)
    (blocks : list string) (blist : BList) (blists : list BList) :
    Analyzer.query an b (full_line pattern) st = (st1, (an1, inr response)) ->
    BList_new (response ++ "EOS" ++ nl) pattern DEFAULT = inr blist ->
    served pattern an1 st1 blocks blists an' st' ->
    served pattern an st (b :: blocks) (blist :: blists) an' st'.

(** *** KNP.parse, KNP.knp and KNP.result *)

Context {J : Tokenizer}.

(** [parse(sentence, juman_format)].  The assertion that [sentence] is a
    text string holds by typing. *)
Definition parse (self : t) (sentence : string) (juman_format : JUMAN_FORMAT)
  (st : St) : St * (t * result parsed) :=
  match Juman_juman_lines (juman self) sentence (world st) with
  | (w, inl e) => ({| world := w; trace := trace st |}, (self, inl e))
  | (w, inr lines) =>
      let juman_str := lines ++ pattern self in
      parse_juman_result self juman_str juman_format
                         {| world := w; trace := trace st |}
  end.

(** [knp(sentence)]: the body is the statement [self.parse(sentence)], with
    no [return], so the method returns [None]. *)
Definition knp (self : t) (sentence : string) (st : St) : St * (t * result unit) :=
  match parse self sentence DEFAULT st with
  | (st', (self', inl e)) => (st', (self', inl e))
  | (st', (self', inr _)) => (st', (self', ret tt))
  end.

(** [result(input_str, juman_format)] *)
Definition result (self : t) (input_str : string) (juman_format : JUMAN_FORMAT)
  : result BList :=
  BList_new input_str (pattern self) juman_format.

End Def.
End KNP.

(** ** Sample inputs *)

Module Samples.

Definition tab : string := String TAB EmptyString.

(** Two competing spellings of the first morpheme (ranks 1 and 2, the same
    identifier), then a morpheme shared by both ranks. *)
Definition akai_1 : string :=
  String.concat tab
    ["-"; "1"; "0"; "0"; "1"; "赤い"; "赤い/あかい"; "あかい"; "赤い"; "形容詞"; "3";
     "*"; "0"; "イ形容詞アウオ段"; "18"; "基本形"; "2"; "特徴量:x|ランク:1"].

Definition akai_2 : string :=
  String.concat tab
    ["-"; "1"; "0"; "0"; "1"; "あかい"; "赤い/あかい"; "あかい"; "あかい"; "形容詞"; "3";
     "*"; "0"; "イ形容詞アウオ段"; "18"; "基本形"; "2"; "特徴量:y|ランク:2"].

Definition hana : string :=
  String.concat tab
    ["-"; "2"; "1"; "1"; "2"; "花"; "花/はな"; "はな"; "花"; "名詞"; "6";
     "普通名詞"; "1"; "*"; "0"; "*"; "0"; "特徴量:z|ランク:1;2"].

Definition lattice : string :=
  String.concat nl ["# S-ID:1"; akai_1; akai_2; hana; "EOS"].

(** The same lattice with the newline that usually ends a response. *)
Definition lattice_newline : string := lattice ++ nl.

(** A record of 18 fields with no rank annotation: no pipe, no colon. *)
Definition unranked : string :=
  String.concat tab
    ["-"; "1"; "0"; "0"; "1"; "a"; "b"; "c"; "d"; "e"; "3";
     "*"; "0"; "f"; "18"; "g"; "2"; "h"].

(** A lattice whose first morpheme has the identifier 0. *)
Definition zero_id : string :=
  String.concat tab
    ["-"; "0"; "0"; "0"; "1"; "a"; "b"; "c"; "d"; "e"; "3";
     "*"; "0"; "f"; "18"; "g"; "2"; "h|r:1"].

(** A record cut after its identifier, and one cut after ten fields. *)
Definition short_2 : string := String.concat tab ["-"; "1"].
Definition short_10 : string :=
  String.concat tab ["-"; "1"; "0"; "0"; "1"; "a"; "b"; "c"; "d"; "e"].

(** The third record of the sample with the rank 1 only, and a lattice of
    one rank. *)
Definition hana_1 : string :=
  String.concat tab
    ["-"; "2"; "1"; "1"; "2"; "花"; "花/はな"; "はな"; "花"; "名詞"; "6";
     "普通名詞"; "1"; "*"; "0"; "*"; "0"; "特徴量:z|ランク:1"].

Definition single_rank : string :=
  String.concat nl ["# S-ID:2"; akai_1; hana_1; "EOS"].

(** The records of the sample with an end marker and a second comment in
    their middle. *)
Definition interleaved : string :=
  String.concat nl ["# old"; akai_1; "EOS"; "# S-ID:1"; akai_2; hana; "EOS"].

(** The first record of the sample with other leading fields and a
    nineteenth field. *)
Definition akai_1_long : string :=
  String.concat tab
    ["+"; "9"; "8"; "7"; "6"; "赤い"; "赤い/あかい"; "あかい"; "赤い"; "形容詞"; "3";
     "*"; "0"; "イ形容詞アウオ段"; "18"; "基本形"; "2"; "特徴量:x|ランク:1"; "extra"].

(** A response with a comment and the end marker only. *)
Definition comment_only : string := String.concat nl ["# S-ID:1"; "EOS"].

End Samples.

(** ** A small outside world *)

Module Toy.

(** Backends that number themselves in order of construction and answer a
    query with its input followed by a newline; a server that refuses
    connections without a port; a file system with one configuration file
    and one executable. *)
#[local] Instance externals : Externals := {|
  World := nat;
  Socket := nat;
  Subprocess := nat;
  Juman := unit;
  BList := string;
  JUMAN_FORMAT := bool;
  DEFAULT := false;
  LATTICE_ALL := true;
  format_eqb := Bool.eqb;
  format_eqb_eq := Bool.eqb_true_iff;
  Socket_new := fun _ port _ w =>
                  match port with
                  | PNone => (w, inl (External "connection refused"))
                  | _ => (S w, inr w)
                  end;
  Subprocess_new := fun _ w => (S w, inr w);
  Socket_query := fun _ input_str _ w => (w, inr (input_str ++ nl));
  Subprocess_query := fun _ input_str _ w => (w, inr (input_str ++ nl));
  Juman_new := fun _ w => (w, inr tt);
  BList_new := fun text _ _ => inr text;
  isfile := fun path _ => String.eqb path "/etc/knprc";
  expanduser := fun path _ => path;
  find_executable := fun cmd _ => if String.eqb cmd "knp" then Some "/usr/bin/knp" else None;
  str_split := Py.split " "%char
|}.

Definition st0 : St := {| world := 0; trace := [] |}.

(** An Analyzer for a local command, and one for a server. *)
Definition local_kw : kwargs :=
  [("backend", PStr "subprocess"); ("command", PList ["knp"; "-tab"])].

Definition remote_kw : kwargs :=
  [("backend", PStr "socket"); ("server", PStr "localhost"); ("port", PInt 31000);
   ("socket_option", PStr "RUN -tab -normal")].

Definition local_analyzer : Analyzer.t :=
  Analyzer.mk (PStr "subprocess") PNone PNone None PNone None (PList ["knp"; "-tab"]).

(** A KNP object as [__init__] would leave it, around [local_analyzer]. *)
Definition knp : KNP.t :=
  KNP.mk "knp" PNone (PInt 31000) (PInt 60) ["-tab"] "" "EOS" local_analyzer
         (PBool true) tt.

Definition three_requests : list (string * string) :=
  [("a", "^EOS$"); ("b", "^EOS$"); ("c", "^EOS$")].

(** The first backend object constructed in this world. *)
Definition subprocess0 : Analyzer.handle := Analyzer.SubprocessHandle 0.

(** The state after that construction. *)
Definition world1 : World := 1.

Definition lattice_all : JUMAN_FORMAT := LATTICE_ALL.
Definition default : JUMAN_FORMAT := DEFAULT.

(** The structured result of a response, in this world the text itself. *)
Definition blist_of (text : string) : BList := text.

(** Arguments naming a command that is not installed, and arguments naming
    a configuration file that does not exist. *)
Definition no_command : KNP.args :=
  KNP.mkArgs "nknp" PNone (PInt 31000) (PInt 60) "-tab" "" "EOS"
             (PStr "jumanpp") (PStr "") (PStr "") (PBool true) (PBool false).

Definition no_rcfile : KNP.args :=
  KNP.mkArgs "knp" PNone (PInt 31000) (PInt 60) "-tab" "~/.knprc" "EOS"
             (PStr "jumanpp") (PStr "") (PStr "") (PBool true) (PBool false).

(** An Analyzer for a server, and requests for it. *)
Definition remote_analyzer : Analyzer.t :=
  Analyzer.mk (PStr "socket") (PStr "localhost") (PInt 31000) None
              (PStr "RUN -tab -normal") None PNone.

(** An Analyzer for a server whose port was not given: in this world its
    connection is refused. *)
Definition unreachable_analyzer : Analyzer.t :=
  Analyzer.mk (PStr "socket") (PStr "localhost") PNone None PNone None PNone.

(** The keywords of the call that builds it. *)
Definition unreachable_kw : kwargs :=
  [("backend", PStr "socket"); ("server", PStr "localhost")].

(** A tokenizer that raises on the empty sentence, answers the sentence
    [akai hana] with the sample lattice without its end marker, and any
    other sentence with the sentence itself followed by a newline. *)
#[local] Instance tokenizer : Tokenizer := {|
  Juman_juman_lines := fun _ sentence w =>
    if String.eqb sentence "" then (w, inl (External "empty sentence"))
    else if String.eqb sentence "akai hana"
    then (w, inr (String.concat nl ["# S-ID:1"; Samples.akai_1; Samples.akai_2;
                                    Samples.hana; ""]))
    else (w, inr (sentence ++ nl))
|}.

(** A KNP object whose end pattern is not the marker of the converter. *)
Definition knp_end : KNP.t :=
  KNP.mk "knp" PNone (PInt 31000) (PInt 60) ["-tab"] "" "END" local_analyzer
         (PBool true) tt.

(** An Analyzer that was told to use a socket but was given no server. *)
Definition mislabelled_analyzer : Analyzer.t :=
  Analyzer.mk (PStr "socket") PNone PNone None PNone None (PList ["knp"; "-tab"]).

(** [parse] with this tokenizer. *)
Definition parse_toy := KNP.parse (J := tokenizer).

End Toy.

(** * Properties *)

(** ** Strings and lists *)

Lemma split_not_nil (sep : ascii) (s : string) : Py.split sep s <> [].
Proof.
  induction s as [|c s IH]; simpl.
  - discriminate.
  - destruct (Ascii.eqb c sep); [discriminate|].
    destruct (Py.split sep s); discriminate.
Qed.

Lemma split_snoc_sep (sep : ascii) (s : string) :
  Py.split sep (s ++ String sep "") = (Py.split sep s ++ [""])%list.
Proof.
  induction s as [|c s IH]; simpl.
  - rewrite Ascii.eqb_refl. reflexivity.
  - destruct (Ascii.eqb c sep).
    + rewrite IH. reflexivity.
    + rewrite IH. destruct (Py.split sep s) eqn:Hs.
      * exfalso. revert Hs. apply split_not_nil.
      * reflexivity.
Qed.

Lemma index_some {A : Type} (l : list A) (i : nat) :
  i < List.length l -> exists x, Py.index l i = inr x /\ nth_error l i = Some x.
Proof.
  intros H. unfold Py.index.
  destruct (nth_error l i) eqn:Hn.
  - eexists; split; reflexivity.
  - apply nth_error_None in Hn. lia.
Qed.

Lemma index_none {A : Type} (l : list A) (i : nat) :
  List.length l <= i -> Py.index l i = inl (IndexError i).
Proof.
  intros H. unfold Py.index.
  apply nth_error_None in H. rewrite H. reflexivity.
Qed.

Lemma index_inr_lt {A : Type} (l : list A) (i : nat) (x : A) :
  Py.index l i = inr x -> i < List.length l.
Proof.
  unfold Py.index. destruct (nth_error l i) eqn:Hn; [|discriminate].
  intros _. apply nth_error_Some. congruence.
Qed.

Lemma index_nth (l : list string) (i : nat) (x : string) :
  Py.index l i = inr x -> nth i l "" = x.
Proof.
  unfold Py.index. destruct (nth_error l i) eqn:Hn; [|discriminate].
  intros H. injection H as <-. now apply nth_error_nth.
Qed.

(** ** The flat line of one lattice record *)

Ltac index_ok values :=
  repeat match goal with
  | |- context [Py.index values ?i] =>
      let x := fresh "v" in
      let Hx := fresh "Hv" in
      destruct (index_some values i) as (x & Hx & _); [lia|];
      rewrite Hx; cbn [bind]
  end.

Lemma lattice2juman_line_ok (values : list string) (flag : bool) :
  18 <= List.length values ->
  exists x, KNP.lattice2juman_line values flag = inr x.
Proof.
  intros H. unfold KNP.lattice2juman_line.
  index_ok values. eexists. reflexivity.
Qed.

Lemma lattice2juman_line_short (values : list string) (flag : bool) :
  List.length values < 18 ->
  KNP.lattice2juman_line values flag =
    inl (IndexError (if (List.length values <=? 6)%nat then 6 else 17)).
Proof.
  intros H. unfold KNP.lattice2juman_line.
  destruct (Nat.leb_spec (List.length values) 6) as [H6|H6].
  - rewrite (index_none values 6) by lia. reflexivity.
  - destruct (index_some values 6) as (v6 & Hv6 & _); [lia|].
    rewrite Hv6. cbn [bind].
    rewrite (index_none values 17) by lia. reflexivity.
Qed.

Lemma lattice2juman_line_inr (values : list string) (flag : bool) (x : string) :
  KNP.lattice2juman_line values flag = inr x -> 18 <= List.length values.
Proof.
  intros H.
  destruct (Nat.lt_ge_cases (List.length values) 18) as [Hlt|Hge]; [|exact Hge].
  rewrite lattice2juman_line_short in H by exact Hlt. discriminate.
Qed.

Lemma lattice2juman_line_marker (values : list string) :
  18 <= List.length values ->
  exists x, KNP.lattice2juman_line values false = inr x /\
            KNP.lattice2juman_line values true = inr ("@ " ++ x).
Proof.
  intros H. unfold KNP.lattice2juman_line.
  index_ok values. eexists. split; reflexivity.
Qed.

Lemma reconstructed_spec (line : string) (flag : bool) :
  18 <= KNP.n_fields line ->
  KNP.lattice2juman_line (Py.split TAB line) flag = inr (KNP.reconstructed line flag).
Proof.
  intros H. unfold KNP.reconstructed.
  destruct (lattice2juman_line_ok (Py.split TAB line) flag H) as [x ->].
  reflexivity.
Qed.

(** ** The rank dictionary *)

Lemma dd_get_append (d : KNP.ddict) (k x k' : string) :
  KNP.dd_get (KNP.dd_append d k x) k' =
    if String.eqb k k' then (KNP.dd_get d k' ++ [x])%list else KNP.dd_get d k'.
Proof.
  induction d as [|[k0 xs] d IH]; simpl.
  - destruct (String.eqb k k'); reflexivity.
  - destruct (String.eqb_spec k0 k) as [->|Hk0]; simpl.
    + destruct (String.eqb k k'); reflexivity.
    + rewrite IH. destruct (String.eqb_spec k0 k') as [->|Hk0'].
      * destruct (String.eqb_spec k k') as [->|_]; [congruence|reflexivity].
      * reflexivity.
Qed.

Lemma dd_keys_append (d : KNP.ddict) (k x k' : string) :
  In k' (KNP.dd_keys (KNP.dd_append d k x)) <-> k' = k \/ In k' (KNP.dd_keys d).
Proof.
  unfold KNP.dd_keys. induction d as [|[k0 xs] d IH]; simpl.
  - intuition.
  - destruct (String.eqb_spec k0 k) as [->|Hk0]; simpl.
    + intuition.
    + rewrite IH. intuition.
Qed.

Lemma dd_keys_append_NoDup (d : KNP.ddict) (k x : string) :
  NoDup (KNP.dd_keys d) -> NoDup (KNP.dd_keys (KNP.dd_append d k x)).
Proof.
  induction d as [|[k0 xs] d IH]; simpl; intros H.
  - constructor; [intros []|constructor].
  - inversion H as [|? ? Hnotin Hnd]; subst.
    destruct (String.eqb_spec k0 k) as [->|Hk0]; simpl.
    + constructor; assumption.
    + constructor.
      * intros Hin. apply (dd_keys_append d k x k0) in Hin.
        destruct Hin as [->|Hin]; [congruence|]. apply Hnotin, Hin.
      * apply IH, Hnd.
Qed.

Lemma dd_get_In (d : KNP.ddict) (k : string) (xs : list string) :
  NoDup (KNP.dd_keys d) -> In (k, xs) d -> KNP.dd_get d k = xs.
Proof.
  induction d as [|[k0 ys] d IH]; simpl; intros Hnd Hin; [contradiction|].
  inversion Hnd as [|? ? Hnotin Hnd']; subst.
  destruct Hin as [Heq|Hin].
  - injection Heq as -> ->. rewrite String.eqb_refl. reflexivity.
  - destruct (String.eqb_spec k0 k) as [->|_].
    + exfalso. apply Hnotin. unfold KNP.dd_keys.
      change k with (fst (k, xs)). apply in_map, Hin.
    + apply IH; assumption.
Qed.

Lemma file_under_get (x : string) (ranks : list string) (d : KNP.ddict) (r : string) :
  KNP.dd_get (KNP.file_under x ranks d) r =
    (KNP.dd_get d r ++ repeat x (count_occ string_dec ranks r))%list.
Proof.
  unfold KNP.file_under. revert d.
  induction ranks as [|k ranks IH]; intros d; simpl.
  - now rewrite app_nil_r.
  - rewrite IH, dd_get_append.
    destruct (string_dec k r) as [->|Hk].
    + rewrite String.eqb_refl. simpl. now rewrite <- app_assoc.
    + destruct (String.eqb_spec k r); [contradiction|reflexivity].
Qed.

Lemma file_under_keys (x : string) (ranks : list string) (d : KNP.ddict) (r : string) :
  In r (KNP.dd_keys (KNP.file_under x ranks d)) <-> In r (KNP.dd_keys d) \/ In r ranks.
Proof.
  unfold KNP.file_under. revert d.
  induction ranks as [|k ranks IH]; intros d; simpl.
  - intuition.
  - rewrite IH, dd_keys_append. intuition congruence.
Qed.

Lemma file_under_NoDup (x : string) (ranks : list string) (d : KNP.ddict) :
  NoDup (KNP.dd_keys d) -> NoDup (KNP.dd_keys (KNP.file_under x ranks d)).
Proof.
  unfold KNP.file_under. revert d.
  induction ranks as [|k ranks IH]; intros d H; simpl.
  - exact H.
  - apply IH, dd_keys_append_NoDup, H.
Qed.

Lemma append_ranks_ok (values : list string) (flag : bool) (x : string)
  (ranks : list string) (d : KNP.ddict) :
  KNP.lattice2juman_line values flag = inr x ->
  KNP.append_ranks values flag ranks d = inr (KNP.file_under x ranks d).
Proof.
  intros Hx. revert d.
  induction ranks as [|k ranks IH]; intros d; simpl.
  - reflexivity.
  - rewrite Hx. cbn [bind]. apply IH.
Qed.

Lemma append_ranks_err (values : list string) (flag : bool) (e : exn)
  (ranks : list string) (d : KNP.ddict) :
  KNP.lattice2juman_line values flag = inl e ->
  ranks <> [] ->
  KNP.append_ranks values flag ranks d = inl e.
Proof.
  intros He Hne. destruct ranks as [|k ranks]; [contradiction|].
  simpl. rewrite He. reflexivity.
Qed.

(** ** The conversion loop *)

Lemma is_mrph_line_true (line : string) :
  KNP.is_mrph_line line = true ->
  Py.startswith "#" line = false /\ String.eqb line "EOS" = false.
Proof.
  unfold KNP.is_mrph_line. intros H.
  apply andb_true_iff in H. destruct H as [H1 H2].
  apply negb_true_iff in H1. apply negb_true_iff in H2. now split.
Qed.

Lemma is_mrph_line_false (line : string) :
  KNP.is_mrph_line line = false ->
  Py.startswith "#" line = true \/
  (Py.startswith "#" line = false /\ String.eqb line "EOS" = true).
Proof.
  unfold KNP.is_mrph_line. intros H.
  destruct (Py.startswith "#" line); [now left|right].
  destruct (String.eqb line "EOS"); [now split|discriminate].
Qed.

Lemma conv_step_skip (st : KNP.conv_state) (line : string) :
  KNP.is_mrph_line line = false ->
  KNP.conv_step st line = inr (KNP.step_ok st line).
Proof.
  intros H. unfold KNP.conv_step, KNP.step_ok.
  destruct (is_mrph_line_false line H) as [-> | [-> ->]]; reflexivity.
Qed.

Lemma conv_step_mrph (st : KNP.conv_state) (line : string) :
  KNP.is_mrph_line line = true ->
  18 <= KNP.n_fields line ->
  KNP.conv_step st line = inr (KNP.step_ok st line).
Proof.
  intros Hm Hn. unfold KNP.conv_step, KNP.step_ok.
  destruct (is_mrph_line_true line Hm) as [-> ->].
  destruct (index_some (Py.split TAB line) 1) as (v1 & Hv1 & _);
    [unfold KNP.n_fields in Hn; lia|].
  rewrite Hv1. cbn [bind].
  apply index_nth in Hv1. fold (KNP.mrph_id line) in Hv1. subst v1.
  rewrite (append_ranks_ok _ _ _ _ _ (reconstructed_spec line _ Hn)).
  reflexivity.
Qed.

Lemma conv_step_malformed (st : KNP.conv_state) (line : string) :
  KNP.malformed line = true ->
  KNP.conv_step st line = inl (IndexError (KNP.error_site line)).
Proof.
  unfold KNP.malformed. intros H.
  apply andb_true_iff in H. destruct H as [Hm Hn].
  apply Nat.ltb_lt in Hn.
  unfold KNP.conv_step, KNP.error_site.
  destruct (is_mrph_line_true line Hm) as [-> ->].
  unfold KNP.n_fields in *.
  destruct (Nat.ltb_spec (List.length (Py.split TAB line)) 2) as [H2|H2].
  - rewrite (index_none _ 1) by lia. reflexivity.
  - destruct (index_some (Py.split TAB line) 1) as (v1 & Hv1 & _); [lia|].
    rewrite Hv1. cbn [bind].
    rewrite (append_ranks_err _ _ _ _ _ (lattice2juman_line_short _ _ Hn)
               (split_not_nil _ _)).
    reflexivity.
Qed.

Lemma malformed_false (line : string) :
  KNP.malformed line = false ->
  KNP.is_mrph_line line = false \/
  (KNP.is_mrph_line line = true /\ 18 <= KNP.n_fields line).
Proof.
  unfold KNP.malformed. intros H.
  destruct (KNP.is_mrph_line line); [right|now left].
  simpl in H. apply Nat.ltb_ge in H. now split.
Qed.

Lemma conv_step_not_malformed (st : KNP.conv_state) (line : string) :
  KNP.malformed line = false ->
  KNP.conv_step st line = inr (KNP.step_ok st line).
Proof.
  intros H. destruct (malformed_false line H) as [Hs | [Hm Hn]].
  - now apply conv_step_skip.
  - now apply conv_step_mrph.
Qed.

(** The loop runs [step_ok] up to the first malformed line and raises there. *)
Lemma conv_loop_spec (lines : list string) (st : KNP.conv_state) :
  KNP.conv_loop st lines =
    match find KNP.malformed lines with
    | Some line => inl (IndexError (KNP.error_site line))
    | None => inr (fold_left KNP.step_ok lines st)
    end.
Proof.
  revert st. induction lines as [|line lines IH]; intros st; simpl.
  - reflexivity.
  - destruct (KNP.malformed line) eqn:Hb.
    + rewrite conv_step_malformed by exact Hb. reflexivity.
    + rewrite conv_step_not_malformed by exact Hb. cbn [bind]. apply IH.
Qed.

Lemma step_ok_skip (st : KNP.conv_state) (line : string) :
  KNP.is_mrph_line line = false ->
  KNP.prev_id (KNP.step_ok st line) = KNP.prev_id st /\
  KNP.juman_lines (KNP.step_ok st line) = KNP.juman_lines st.
Proof.
  intros H. unfold KNP.step_ok.
  destruct (is_mrph_line_false line H) as [-> | [-> ->]]; now split.
Qed.

Lemma step_ok_mrph (st : KNP.conv_state) (line : string) :
  KNP.is_mrph_line line = true ->
  KNP.step_ok st line =
    let the_same_mrph_id := String.eqb (KNP.mrph_id line) (KNP.prev_id st) in
    {| KNP.comment := KNP.comment st;
       KNP.prev_id := if negb the_same_mrph_id then KNP.mrph_id line
                      else KNP.prev_id st;
       KNP.juman_lines :=
         KNP.file_under (KNP.reconstructed line the_same_mrph_id)
                        (KNP.line_ranks line) (KNP.juman_lines st) |}.
Proof.
  intros H. unfold KNP.step_ok.
  destruct (is_mrph_line_true line H) as [-> ->]. reflexivity.
Qed.

(** The morpheme lines of a list of lines, each with its flag. *)
Lemma fold_step_ok_get (lines : list string) (st : KNP.conv_state) (r : string) :
  KNP.dd_get (KNP.juman_lines (fold_left KNP.step_ok lines st)) r =
    (KNP.dd_get (KNP.juman_lines st) r ++
     KNP.rank_lines r
       (combine (filter KNP.is_mrph_line lines)
                (KNP.the_same_flags (KNP.prev_id st)
                   (map KNP.mrph_id (filter KNP.is_mrph_line lines)))))%list.
Proof.
  revert st. induction lines as [|line lines IH]; intros st; simpl.
  - now rewrite app_nil_r.
  - rewrite IH. destruct (KNP.is_mrph_line line) eqn:Hm.
    + rewrite (step_ok_mrph st line Hm). cbn -[KNP.rank_lines].
      rewrite file_under_get, <- app_assoc. reflexivity.
    + destruct (step_ok_skip st line Hm) as [-> ->]. reflexivity.
Qed.

Lemma fold_step_ok_keys (lines : list string) (st : KNP.conv_state) (r : string) :
  In r (KNP.dd_keys (KNP.juman_lines (fold_left KNP.step_ok lines st))) <->
  In r (KNP.dd_keys (KNP.juman_lines st)) \/
  In r (flat_map KNP.line_ranks (filter KNP.is_mrph_line lines)).
Proof.
  revert st. induction lines as [|line lines IH]; intros st; simpl.
  - intuition.
  - rewrite IH. destruct (KNP.is_mrph_line line) eqn:Hm.
    + rewrite (step_ok_mrph st line Hm). cbn.
      rewrite file_under_keys, in_app_iff. intuition.
    + destruct (step_ok_skip st line Hm) as [_ ->]. reflexivity.
Qed.

Lemma fold_step_ok_NoDup (lines : list string) (st : KNP.conv_state) :
  NoDup (KNP.dd_keys (KNP.juman_lines st)) ->
  NoDup (KNP.dd_keys (KNP.juman_lines (fold_left KNP.step_ok lines st))).
Proof.
  revert st. induction lines as [|line lines IH]; intros st H; simpl.
  - exact H.
  - apply IH. destruct (KNP.is_mrph_line line) eqn:Hm.
    + rewrite (step_ok_mrph st line Hm). cbn. apply file_under_NoDup, H.
    + destruct (step_ok_skip st line Hm) as [_ ->]. exact H.
Qed.

Lemma fold_step_ok_comment (lines : list string) (st : KNP.conv_state) :
  KNP.comment (fold_left KNP.step_ok lines st) =
    fold_left (fun c line => if Py.startswith "#" line then line else c)
              lines (KNP.comment st).
Proof.
  revert st. induction lines as [|line lines IH]; intros st; simpl.
  - reflexivity.
  - rewrite IH. f_equal. unfold KNP.step_ok.
    destruct (Py.startswith "#" line); [reflexivity|].
    destruct (String.eqb line "EOS"); reflexivity.
Qed.

Lemma find_malformed_None (lines : list string) :
  find KNP.malformed lines = None <->
  Forall (fun line => 18 <= KNP.n_fields line) (filter KNP.is_mrph_line lines).
Proof.
  induction lines as [|line lines IH]; simpl.
  - split; [constructor|reflexivity].
  - unfold KNP.malformed at 1.
    destruct (KNP.is_mrph_line line); simpl.
    + destruct (Nat.ltb_spec (KNP.n_fields line) 18) as [Hlt|Hge].
      * split; [discriminate|]. intros H. inversion H; subst. lia.
      * rewrite IH. split; [now constructor|]. intros H. now inversion H.
    + exact IH.
Qed.

Lemma find_malformed_Some (lines : list string) (line : string) :
  find KNP.malformed lines = Some line ->
  In line lines /\ KNP.is_mrph_line line = true /\ KNP.n_fields line < 18.
Proof.
  intros H. apply find_some in H. destruct H as [Hin Hb].
  unfold KNP.malformed in Hb. apply andb_true_iff in Hb.
  destruct Hb as [Hm Hn]. apply Nat.ltb_lt in Hn. auto.
Qed.

(** ** Sorting the items *)

Lemma ascii_compare_refl (a : ascii) : Ascii.compare a a = Eq.
Proof. unfold Ascii.compare. apply N.compare_refl. Qed.

Lemma ascii_compare_lt_trans (a b c : ascii) :
  Ascii.compare a b = Lt -> Ascii.compare b c = Lt -> Ascii.compare a c = Lt.
Proof.
  unfold Ascii.compare. rewrite !N.compare_lt_iff. lia.
Qed.

Lemma string_compare_lt_trans (a b c : string) :
  String.compare a b = Lt -> String.compare b c = Lt -> String.compare a c = Lt.
Proof.
  revert b c. induction a as [|x a IH]; intros [|y b] [|z c]; simpl;
    try discriminate; try reflexivity.
  destruct (Ascii.compare x y) eqn:Hxy; try discriminate;
    destruct (Ascii.compare y z) eqn:Hyz; try discriminate.
  - apply Ascii.compare_eq_iff in Hxy, Hyz. subst.
    rewrite ascii_compare_refl. apply IH.
  - apply Ascii.compare_eq_iff in Hxy. subst. rewrite Hyz. reflexivity.
  - apply Ascii.compare_eq_iff in Hyz. subst. rewrite Hxy. reflexivity.
  - rewrite (ascii_compare_lt_trans x y z Hxy Hyz). reflexivity.
Qed.

Lemma string_ltb_trans (a b c : string) :
  String.ltb a b = true -> String.ltb b c = true -> String.ltb a c = true.
Proof.
  unfold String.ltb. intros Hab Hbc.
  destruct (String.compare a b) eqn:Eab; try discriminate.
  destruct (String.compare b c) eqn:Ebc; try discriminate.
  now rewrite (string_compare_lt_trans a b c Eab Ebc).
Qed.

Lemma tuple_leb_total (a b : string * string) :
  KNP.tuple_leb a b = false -> KNP.tuple_leb b a = true.
Proof.
  unfold KNP.tuple_leb. rewrite (String.compare_antisym (fst b) (fst a)).
  destruct (String.compare (fst a) (fst b)); cbn [CompOpp]; try easy.
  intros H. destruct (String.leb_total (snd a) (snd b)); congruence.
Qed.

Lemma sorted_insert_perm (a : string * string) (l : list (string * string)) :
  Permutation (KNP.sorted_insert a l) (a :: l).
Proof.
  induction l as [|b l IH]; simpl.
  - reflexivity.
  - destruct (KNP.tuple_leb a b); [reflexivity|].
    rewrite IH. apply perm_swap.
Qed.

Lemma sorted_perm (l : list (string * string)) : Permutation (KNP.sorted l) l.
Proof.
  induction l as [|a l IH]; simpl.
  - constructor.
  - rewrite sorted_insert_perm. now constructor.
Qed.

Lemma sorted_insert_Sorted (a : string * string) (l : list (string * string)) :
  Sorted (fun x y => KNP.tuple_leb x y = true) l ->
  Sorted (fun x y => KNP.tuple_leb x y = true) (KNP.sorted_insert a l).
Proof.
  induction l as [|b l IH]; simpl; intros H.
  - repeat constructor.
  - destruct (KNP.tuple_leb a b) eqn:Hab.
    + constructor; [exact H|now constructor].
    + inversion H as [|? ? Hs Hhd]; subst.
      constructor; [apply IH, Hs|].
      destruct l as [|c l]; simpl.
      * constructor. now apply tuple_leb_total.
      * destruct (KNP.tuple_leb a c).
        -- constructor. now apply tuple_leb_total.
        -- inversion Hhd; subst. now constructor.
Qed.

Lemma sorted_Sorted (l : list (string * string)) :
  Sorted (fun x y => KNP.tuple_leb x y = true) (KNP.sorted l).
Proof.
  induction l as [|a l IH]; simpl.
  - constructor.
  - apply sorted_insert_Sorted, IH.
Qed.

Lemma tuple_leb_keys (a b : string * string) :
  KNP.tuple_leb a b = true -> fst a <> fst b -> String.ltb (fst a) (fst b) = true.
Proof.
  unfold KNP.tuple_leb, String.ltb. intros H Hne.
  destruct (String.compare (fst a) (fst b)) eqn:Hc; try easy.
  apply String.compare_eq_iff in Hc. contradiction.
Qed.

Lemma Sorted_keys_increasing (l : list (string * string)) :
  Sorted (fun x y => KNP.tuple_leb x y = true) l ->
  NoDup (map fst l) ->
  KNP.increasing (map fst l).
Proof.
  intros Hs Hnd. apply Sorted_StronglySorted.
  - intros x y z. apply string_ltb_trans.
  - induction Hs as [|a l Hs IH Hhd]; simpl.
    + constructor.
    + inversion Hnd as [|? ? Hnotin Hnd']; subst.
      constructor; [apply IH, Hnd'|].
      destruct Hhd as [|b l Hab]; simpl; constructor.
      apply tuple_leb_keys; [exact Hab|].
      intros Heq. apply Hnotin. simpl. now left.
Qed.

Lemma sorted_keys_increasing (l : list (string * string)) :
  NoDup (map fst l) -> KNP.increasing (map fst (KNP.sorted l)).
Proof.
  intros Hnd. apply Sorted_keys_increasing.
  - apply sorted_Sorted.
  - apply (Permutation_NoDup (l := map fst l)); [|exact Hnd].
    apply Permutation_map, Permutation_sym, sorted_perm.
Qed.

(** ** The converter as a whole *)

Lemma well_formedb_true (s : string) : KNP.well_formedb s = true -> KNP.well_formed s.
Proof.
  unfold KNP.well_formedb, KNP.well_formed. rewrite forallb_forall, Forall_forall.
  intros H line Hin. apply Nat.leb_le, H, Hin.
Qed.

Lemma conv_loop_well_formed (s : string) :
  KNP.well_formed s ->
  KNP.conv_loop KNP.conv_init (Py.split LF s) =
    inr (fold_left KNP.step_ok (Py.split LF s) KNP.conv_init).
Proof.
  intros H. rewrite conv_loop_spec.
  apply find_malformed_None in H. now rewrite H.
Qed.

Lemma conv_loop_inr (s : string) (st : KNP.conv_state) :
  KNP.conv_loop KNP.conv_init (Py.split LF s) = inr st ->
  KNP.well_formed s /\ st = fold_left KNP.step_ok (Py.split LF s) KNP.conv_init.
Proof.
  rewrite conv_loop_spec.
  destruct (find KNP.malformed (Py.split LF s)) eqn:Hf; [discriminate|].
  intros H. split; [now apply find_malformed_None|congruence].
Qed.

(** What the loop leaves under each rank. *)
Lemma final_get (s rank : string) :
  KNP.dd_get (KNP.juman_lines (fold_left KNP.step_ok (Py.split LF s) KNP.conv_init))
             rank
  = KNP.rank_lines rank (KNP.marked_lines s).
Proof.
  rewrite fold_step_ok_get. reflexivity.
Qed.

Lemma final_keys (s rank : string) :
  In rank (KNP.dd_keys
             (KNP.juman_lines (fold_left KNP.step_ok (Py.split LF s) KNP.conv_init)))
  <-> In rank (KNP.distinct_ranks s).
Proof.
  rewrite fold_step_ok_keys. unfold KNP.distinct_ranks, KNP.all_ranks, KNP.mrph_lines.
  rewrite nodup_In. simpl. intuition.
Qed.

Lemma final_NoDup (s : string) :
  NoDup (KNP.dd_keys
           (KNP.juman_lines (fold_left KNP.step_ok (Py.split LF s) KNP.conv_init))).
Proof. apply fold_step_ok_NoDup. constructor. Qed.

Lemma final_items (s : string) :
  Forall (fun it => snd it = KNP.rank_block s (fst it))
    (KNP.rank2juman_lines (fold_left KNP.step_ok (Py.split LF s) KNP.conv_init)).
Proof.
  unfold KNP.rank2juman_lines. apply Forall_forall. intros it Hin.
  apply in_map_iff in Hin. destruct Hin as ([k xs] & <- & Hin). simpl.
  unfold KNP.rank_block. rewrite fold_step_ok_comment.
  rewrite <- final_get.
  rewrite (dd_get_In _ k xs (final_NoDup s) Hin). reflexivity.
Qed.

Lemma final_item_keys (st : KNP.conv_state) :
  map fst (KNP.rank2juman_lines st) = KNP.dd_keys (KNP.juman_lines st).
Proof.
  unfold KNP.rank2juman_lines, KNP.dd_keys. rewrite map_map. reflexivity.
Qed.

(** The blocks of a well-formed input: one per distinct rank, in increasing
    order of the rank identifiers. *)
Lemma final_blocks (s : string) :
  exists ranks,
    map snd (KNP.sorted (KNP.rank2juman_lines
                           (fold_left KNP.step_ok (Py.split LF s) KNP.conv_init)))
      = map (KNP.rank_block s) ranks /\
    Permutation ranks (KNP.distinct_ranks s) /\
    KNP.increasing ranks.
Proof.
  set (st := fold_left KNP.step_ok (Py.split LF s) KNP.conv_init).
  exists (map fst (KNP.sorted (KNP.rank2juman_lines st))).
  split; [|split].
  - rewrite map_map. apply map_ext_in. intros it Hin.
    pose proof (final_items s) as Hall. fold st in Hall.
    rewrite Forall_forall in Hall. apply Hall.
    apply (Permutation_in _ (sorted_perm _)), Hin.
  - rewrite (Permutation_map fst (sorted_perm (KNP.rank2juman_lines st))).
    rewrite final_item_keys.
    apply NoDup_Permutation.
    + apply final_NoDup.
    + apply NoDup_nodup.
    + intros r. apply final_keys.
  - apply sorted_keys_increasing. rewrite final_item_keys. apply final_NoDup.
Qed.

Lemma lattice_all2juman_lines_spec (s : string) :
  KNP.lattice_all2juman_lines s =
    match find KNP.malformed (Py.split LF s) with
    | Some line => inl (IndexError (KNP.error_site line))
    | None =>
        inr (map snd (KNP.sorted
               (KNP.rank2juman_lines
                  (fold_left KNP.step_ok (Py.split LF s) KNP.conv_init))))
    end.
Proof.
  unfold KNP.lattice_all2juman_lines. rewrite conv_loop_spec.
  destruct (find KNP.malformed (Py.split LF s)); reflexivity.
Qed.

Lemma lattice_all2juman_lines_ok (s : string) :
  KNP.well_formed s ->
  exists ranks,
    KNP.lattice_all2juman_lines s = inr (map (KNP.rank_block s) ranks) /\
    Permutation ranks (KNP.distinct_ranks s) /\
    KNP.increasing ranks.
Proof.
  intros H. destruct (final_blocks s) as (ranks & Hb & Hp & Hi).
  exists ranks. split; [|now split].
  rewrite lattice_all2juman_lines_spec.
  apply find_malformed_None in H. rewrite H, Hb. reflexivity.
Qed.

(** ** The blocks of the converter *)

(** C1.  For a lattice whose morpheme lines all have the 18 fields, the
    converter returns one block per distinct rank identifier: the list of
    blocks follows the distinct rank identifiers in strictly increasing
    order, so it has exactly as many elements as there are distinct ranks,
    and the block of a rank is the tracked comment line, a newline, the
    lines accumulated for the rank joined by newlines, a newline and [EOS]. *)
Theorem lattice_all2juman_lines_blocks (s : string) :
  KNP.well_formed s ->
  exists blocks ranks,
    KNP.lattice_all2juman_lines s = inr blocks /\
    Permutation ranks (KNP.distinct_ranks s) /\
    KNP.increasing ranks /\
    blocks =
      map (fun rank =>
             KNP.tracked_comment s ++ nl
             ++ Py.join nl (KNP.rank_lines rank (KNP.marked_lines s))
             ++ nl ++ "EOS")
          ranks /\
    List.length blocks = List.length (KNP.distinct_ranks s).
Proof.
  intros H.
  destruct (lattice_all2juman_lines_ok s H) as (ranks & Hb & Hp & Hi).
  exists (map (KNP.rank_block s) ranks), ranks.
  repeat split; try assumption.
  rewrite length_map. now apply Permutation_length.
Qed.

Lemma lattice_all2juman_lines_blocks_witness :
  exists blocks ranks,
    KNP.lattice_all2juman_lines Samples.lattice = inr blocks /\
    Permutation ranks (KNP.distinct_ranks Samples.lattice) /\
    KNP.increasing ranks /\
    blocks =
      map (fun rank =>
             KNP.tracked_comment Samples.lattice ++ nl
             ++ Py.join nl (KNP.rank_lines rank (KNP.marked_lines Samples.lattice))
             ++ nl ++ "EOS")
          ranks /\
    List.length blocks = List.length (KNP.distinct_ranks Samples.lattice).
Proof.
  apply (lattice_all2juman_lines_blocks Samples.lattice).
  apply well_formedb_true. vm_compute. reflexivity.
Defined.

(** The sample lattice has the ranks 1 and 2 and gives two blocks. *)
Example lattice_blocks_sample :
  KNP.distinct_ranks Samples.lattice = ["1"; "2"] /\
  exists b1 b2, KNP.lattice_all2juman_lines Samples.lattice = inr [b1; b2].
Proof. split; [|do 2 eexists]; vm_compute; reflexivity. Qed.

(** ** Rank sets and the order of the lines *)

(** C3.  On a lattice the loop processes to its end, the lines filed under
    each rank are, in source order, the flat lines of the morpheme lines
    (every line that is neither a comment nor [EOS]), each one once per
    occurrence of the rank in the line's rank list; the rank list is the
    last pipe-delimited segment of the whole line, its last colon-delimited
    component, split on semicolons. *)
Theorem rank_groups_follow_source (s : string) :
  KNP.well_formed s ->
  exists st,
    KNP.conv_loop KNP.conv_init (Py.split LF s) = inr st /\
    map fst (KNP.marked_lines s)
      = filter (fun line => negb (Py.startswith "#" line) && negb (String.eqb line "EOS"))
               (Py.split LF s) /\
    Forall (fun lf =>
              KNP.lattice2juman_line (Py.split TAB (fst lf)) (snd lf)
                = inr (KNP.reconstructed (fst lf) (snd lf)))
           (KNP.marked_lines s) /\
    forall rank,
      KNP.dd_get (KNP.juman_lines st) rank =
        flat_map
          (fun lf =>
             repeat (KNP.reconstructed (fst lf) (snd lf))
               (count_occ string_dec
                  (Py.split ";"%char
                     (Py.last (Py.split ":"%char (Py.last (Py.split "|"%char (fst lf))))))
                  rank))
          (KNP.marked_lines s).
Proof.
  intros H. eexists. split; [apply conv_loop_well_formed, H|].
  assert (Hlen : forall p ids, List.length (KNP.the_same_flags p ids) = List.length ids).
  { intros p ids. revert p. induction ids as [|i ids IH]; intros p; simpl;
      [reflexivity|now rewrite IH]. }
  assert (Hfst : map fst (KNP.marked_lines s) = KNP.mrph_lines s).
  { unfold KNP.marked_lines, KNP.mrph_ids.
    generalize (KNP.mrph_lines s) as ls. intros ls.
    assert (Hl : List.length ls =
                 List.length (KNP.the_same_flags "0" (map KNP.mrph_id ls)))
      by now rewrite Hlen, length_map.
    revert Hl. generalize (KNP.the_same_flags "0" (map KNP.mrph_id ls)) as fs.
    induction ls as [|l ls IH]; intros [|f fs] Hl; simpl in *;
      try discriminate; try reflexivity.
    f_equal. apply IH. now injection Hl. }
  split; [exact Hfst|]. split.
  - apply Forall_forall. intros lf Hin. apply reconstructed_spec.
    unfold KNP.well_formed in H. rewrite Forall_forall in H. apply H.
    rewrite <- Hfst. now apply in_map.
  - intros rank. apply final_get.
Qed.

Lemma rank_groups_follow_source_witness :
  KNP.well_formed Samples.lattice /\
  exists st,
    KNP.conv_loop KNP.conv_init (Py.split LF Samples.lattice) = inr st /\
    KNP.dd_get (KNP.juman_lines st) "2" =
      [KNP.reconstructed Samples.akai_2 true; KNP.reconstructed Samples.hana false].
Proof.
  assert (Hwf : KNP.well_formed Samples.lattice)
    by (apply well_formedb_true; vm_compute; reflexivity).
  split; [exact Hwf|].
  destruct (rank_groups_follow_source Samples.lattice Hwf) as (st & Hst & _ & _ & Hget).
  exists st. split; [exact Hst|]. rewrite Hget. vm_compute. reflexivity.
Defined.

(** ** The continuation marker *)

Lemma the_same_flags_previous (prev : string) (ids : list string) :
  KNP.the_same_flags prev ids = KNP.same_as_previous (Some prev) ids.
Proof.
  revert prev. induction ids as [|id ids IH]; intros prev; simpl.
  - reflexivity.
  - f_equal. destruct (String.eqb_spec id prev) as [->|Hne]; simpl; apply IH.
Qed.

Lemma the_same_flags_sentinel (ids : list string) :
  hd "" ids <> "0" ->
  KNP.the_same_flags "0" ids = KNP.same_as_previous None ids.
Proof.
  destruct ids as [|id ids]; simpl; intros H.
  - reflexivity.
  - destruct (String.eqb_spec id "0") as [->|Hne]; [contradiction|].
    simpl. f_equal. apply the_same_flags_previous.
Qed.

Lemma same_as_previous_nth (prev : option string) (ids : list string) (i : nat) :
  i < List.length ids ->
  nth i (KNP.same_as_previous prev ids) false =
    match i with
    | 0 => match prev with
           | None => false
           | Some p => String.eqb (nth 0 ids "") p
           end
    | S j => String.eqb (nth (S j) ids "") (nth j ids "")
    end.
Proof.
  revert prev i. induction ids as [|id ids IH]; intros prev i Hi; simpl in Hi.
  - lia.
  - destruct i as [|j]; simpl.
    + reflexivity.
    + rewrite IH by lia. destruct j; reflexivity.
Qed.

(** C2.  On a lattice the loop processes to its end and whose first morpheme
    identifier is not the sentinel ["0"] the loop starts from, the line filed
    for a morpheme line carries the marker iff the line is not the first
    morpheme line and its identifier (tab field 1) equals that of the
    morpheme line before it: the first line is never marked, and in a run of
    equal identifiers every line but the first is.  The marked form of a
    line is its unmarked form behind the prefix ["@ "]. *)
Theorem continuation_marker (s : string) :
  KNP.well_formed s ->
  hd "" (KNP.mrph_ids s) <> "0" ->
  exists st,
    KNP.conv_loop KNP.conv_init (Py.split LF s) = inr st /\
    (forall rank,
        KNP.dd_get (KNP.juman_lines st) rank =
          KNP.rank_lines rank
            (combine (KNP.mrph_lines s)
                     (KNP.same_as_previous None (KNP.mrph_ids s)))) /\
    (forall i, i < List.length (KNP.mrph_ids s) ->
        nth i (KNP.same_as_previous None (KNP.mrph_ids s)) false = true <->
        exists j, i = S j /\
                  nth (S j) (KNP.mrph_ids s) "" = nth j (KNP.mrph_ids s) "") /\
    Forall (fun line =>
              KNP.lattice2juman_line (Py.split TAB line) true
                = inr ("@ " ++ KNP.reconstructed line false))
           (KNP.mrph_lines s).
Proof.
  intros Hwf H0. eexists. split; [apply conv_loop_well_formed, Hwf|].
  split; [|split].
  - intros rank. rewrite final_get. unfold KNP.marked_lines.
    now rewrite the_same_flags_sentinel.
  - intros i Hi. rewrite same_as_previous_nth by exact Hi.
    destruct i as [|j].
    + split; [discriminate|]. intros (j & Hj & _). discriminate.
    + rewrite String.eqb_eq. split.
      * intros H. now exists j.
      * intros (j' & Hj & H). now injection Hj as ->.
  - unfold KNP.well_formed in Hwf. eapply Forall_impl; [|exact Hwf].
    intros line Hn. cbv beta in Hn.
    destruct (lattice2juman_line_marker (Py.split TAB line) Hn) as (x & Hf & Ht).
    unfold KNP.reconstructed. now rewrite Hf, Ht.
Qed.

Lemma continuation_marker_witness :
  KNP.well_formed Samples.lattice /\
  hd "" (KNP.mrph_ids Samples.lattice) <> "0" /\
  exists st,
    KNP.conv_loop KNP.conv_init (Py.split LF Samples.lattice) = inr st /\
    KNP.dd_get (KNP.juman_lines st) "2" =
      KNP.rank_lines "2"
        (combine (KNP.mrph_lines Samples.lattice) [false; true; false]).
Proof.
  assert (Hwf : KNP.well_formed Samples.lattice)
    by (apply well_formedb_true; vm_compute; reflexivity).
  assert (H0 : hd "" (KNP.mrph_ids Samples.lattice) <> "0")
    by (vm_compute; discriminate).
  split; [exact Hwf|]. split; [exact H0|].
  destruct (continuation_marker Samples.lattice Hwf H0) as (st & Hst & Hget & _).
  exists st. split; [exact Hst|]. rewrite Hget. reflexivity.
Defined.

(** Without the assumption on the first identifier the first line is
    marked: the sentinel is an ordinary string. *)
Example sentinel_is_an_id :
  KNP.lattice_all2juman_lines Samples.zero_id
    = inr ["" ++ nl ++ "@ " ++ KNP.reconstructed Samples.zero_id false ++ nl ++ "EOS"].
Proof. vm_compute. reflexivity. Qed.

(** ** Lines the converter cannot read *)

Lemma find_malformed_In (lines : list string) (line : string) :
  In line lines -> KNP.malformed line = true ->
  exists line', find KNP.malformed lines = Some line'.
Proof.
  intros Hin Hb. destruct (find KNP.malformed lines) eqn:Hf.
  - now eexists.
  - rewrite (find_none _ _ Hf line Hin) in Hb. discriminate.
Qed.

Lemma lattice_all2juman_lines_raises (s : string) (e : exn) :
  KNP.lattice_all2juman_lines s = inl e ->
  exists line, In line (KNP.mrph_lines s) /\ KNP.n_fields line < 18 /\
               e = IndexError (KNP.error_site line).
Proof.
  rewrite lattice_all2juman_lines_spec.
  destruct (find KNP.malformed (Py.split LF s)) as [line|] eqn:Hf; [|discriminate].
  intros H. injection H as <-.
  destruct (find_malformed_Some _ _ Hf) as (Hin & Hm & Hn).
  exists line. repeat split; try assumption.
  unfold KNP.mrph_lines. apply filter_In. now split.
Qed.

Lemma malformed_line_raises (s line : string) :
  In line (Py.split LF s) -> KNP.malformed line = true ->
  exists i, KNP.lattice_all2juman_lines s = inl (IndexError i).
Proof.
  intros Hin Hbad.
  destruct (find_malformed_In _ _ Hin Hbad) as (line' & Hf).
  rewrite lattice_all2juman_lines_spec, Hf. now eexists.
Qed.

(** C10.  The converter is partial.  An input with a line that does not
    start with [#], is not [EOS] and has fewer than 18 tab-separated fields
    makes it raise [IndexError]; on a line with fewer than 2 fields the loop
    body raises when it reads the morpheme identifier [values[1]], and on a
    line with 2 to 17 fields it raises inside [lattice2juman_line]. *)
Theorem short_line_raises_IndexError (s line : string) :
  In line (Py.split LF s) ->
  Py.startswith "#" line = false ->
  line <> "EOS" ->
  KNP.n_fields line < 18 ->
  (exists i, KNP.lattice_all2juman_lines s = inl (IndexError i)) /\
  (KNP.n_fields line < 2 ->
     Py.index (Py.split TAB line) 1 = inl (IndexError 1) /\
     forall st, KNP.conv_step st line = inl (IndexError 1)) /\
  (2 <= KNP.n_fields line ->
     forall st flag, exists i,
       KNP.lattice2juman_line (Py.split TAB line) flag = inl (IndexError i) /\
       KNP.conv_step st line = inl (IndexError i)).
Proof.
  intros Hin Hc He Hn.
  assert (Hbad : KNP.malformed line = true).
  { unfold KNP.malformed, KNP.is_mrph_line. rewrite Hc.
    apply String.eqb_neq in He. rewrite He. simpl. now apply Nat.ltb_lt. }
  split; [|split].
  - exact (malformed_line_raises s line Hin Hbad).
  - intros H2. split.
    + apply index_none. unfold KNP.n_fields in H2. lia.
    + intros st. rewrite (conv_step_malformed st line Hbad).
      unfold KNP.error_site.
      destruct (Nat.ltb_spec (KNP.n_fields line) 2); [reflexivity|lia].
  - intros H2 st flag. exists (KNP.error_site line). split.
    + rewrite lattice2juman_line_short by exact Hn.
      unfold KNP.error_site, KNP.n_fields.
      destruct (Nat.ltb_spec (List.length (Py.split TAB line)) 2);
        [unfold KNP.n_fields in H2; lia|reflexivity].
    + apply conv_step_malformed, Hbad.
Qed.

Lemma short_line_raises_IndexError_witness :
  KNP.lattice_all2juman_lines Samples.lattice_newline = inl (IndexError 1) /\
  exists i, KNP.lattice_all2juman_lines Samples.lattice_newline = inl (IndexError i).
Proof.
  split; [vm_compute; reflexivity|].
  apply (short_line_raises_IndexError Samples.lattice_newline "").
  - vm_compute. tauto.
  - reflexivity.
  - discriminate.
  - vm_compute. lia.
Defined.

(** The empty line that a newline after the final [EOS] produces is such a
    line, whatever precedes it. *)
Lemma trailing_newline_raises (s : string) :
  exists i, KNP.lattice_all2juman_lines (s ++ nl) = inl (IndexError i).
Proof.
  apply (malformed_line_raises (s ++ nl) "").
  - unfold nl. rewrite split_snoc_sep. apply in_or_app. right. now left.
  - reflexivity.
Qed.

Example short_lines_sample :
  KNP.lattice_all2juman_lines Samples.short_2 = inl (IndexError 6) /\
  KNP.lattice_all2juman_lines Samples.short_10 = inl (IndexError 17) /\
  KNP.lattice_all2juman_lines "-" = inl (IndexError 1).
Proof. repeat split; vm_compute; reflexivity. Qed.

(** ** Lines without a rank annotation *)

Lemma line_ranks_not_nil (line : string) : KNP.line_ranks line <> [].
Proof. apply split_not_nil. Qed.

(** C6, as the code has it.  The converter has no check of the rank
    annotation.  On a lattice whose morpheme lines all have the 18 fields it
    returns its blocks without raising; the rank list of a morpheme line is
    never empty, whatever the line contains, and the line is filed in the
    block of every element of that list; a lattice with no morpheme line
    gives the empty list of blocks. *)
Theorem converter_accepts_any_rank_field (s : string) :
  KNP.well_formed s ->
  exists blocks,
    KNP.lattice_all2juman_lines s = inr blocks /\
    Forall (fun line => KNP.line_ranks line <> []) (KNP.mrph_lines s) /\
    (forall lf rank,
        In lf (KNP.marked_lines s) -> In rank (KNP.line_ranks (fst lf)) ->
        In (KNP.rank_block s rank) blocks /\
        In (KNP.reconstructed (fst lf) (snd lf))
           (KNP.rank_lines rank (KNP.marked_lines s))) /\
    (KNP.mrph_lines s = [] -> blocks = []).
Proof.
  intros H.
  destruct (lattice_all2juman_lines_ok s H) as (ranks & Hb & Hp & _).
  exists (map (KNP.rank_block s) ranks). split; [exact Hb|]. split; [|split].
  - apply Forall_forall. intros line _. apply line_ranks_not_nil.
  - intros lf rank Hlf Hr. split.
    + apply in_map. apply (Permutation_in _ (Permutation_sym Hp)).
      unfold KNP.distinct_ranks. apply nodup_In.
      unfold KNP.all_ranks. apply in_flat_map. exists (fst lf). split; [|exact Hr].
      destruct lf as [l f]. unfold KNP.marked_lines in Hlf.
      now apply in_combine_l in Hlf.
    + unfold KNP.rank_lines. apply in_flat_map. exists lf. split; [exact Hlf|].
      apply (count_occ_In string_dec) in Hr.
      destruct (count_occ string_dec (KNP.line_ranks (fst lf)) rank); [lia|].
      simpl. now left.
  - intros Hnil. unfold KNP.distinct_ranks, KNP.all_ranks in Hp.
    rewrite Hnil in Hp. simpl in Hp. apply Permutation_sym, Permutation_nil in Hp.
    now subst ranks.
Qed.

Lemma converter_accepts_any_rank_field_witness :
  KNP.well_formed Samples.unranked /\
  exists blocks,
    KNP.lattice_all2juman_lines Samples.unranked = inr blocks /\
    In (KNP.rank_block Samples.unranked Samples.unranked) blocks.
Proof.
  assert (Hwf : KNP.well_formed Samples.unranked)
    by (apply well_formedb_true; vm_compute; reflexivity).
  split; [exact Hwf|].
  destruct (converter_accepts_any_rank_field Samples.unranked Hwf)
    as (blocks & Hb & _ & Hin & _).
  exists blocks. split; [exact Hb|].
  assert (H1 : In (Samples.unranked, false) (KNP.marked_lines Samples.unranked))
    by (vm_compute; left; reflexivity).
  assert (H2 : In Samples.unranked (KNP.line_ranks (fst (Samples.unranked, false))))
    by (vm_compute; left; reflexivity).
  exact (proj1 (Hin (Samples.unranked, false) Samples.unranked H1 H2)).
Defined.

(** C6, as stated, fails: a record of 18 fields without any rank annotation
    is converted without an error, filed under a rank that is the whole
    record, and a lattice without morpheme lines gives no block and no
    error. *)
Lemma unranked_line_is_accepted :
  KNP.line_ranks Samples.unranked = [Samples.unranked] /\
  KNP.lattice_all2juman_lines Samples.unranked
    = inr ["" ++ nl ++ KNP.reconstructed Samples.unranked false ++ nl ++ "EOS"] /\
  KNP.lattice_all2juman_lines "EOS" = inr [] /\
  ~ (exists e, KNP.lattice_all2juman_lines Samples.unranked = inl e).
Proof.
  repeat split; try (vm_compute; reflexivity).
  intros [e He]. vm_compute in He. discriminate.
Qed.

(** ** The Analyzer and its backend *)

Section AnalyzerFacts.
Context {E : Externals}.
Local Open Scope list_scope.

Lemma init_no_backend (kw : kwargs) (self : Analyzer.t) :
  Analyzer.__init__ kw = inr self ->
  Analyzer.socket self = None /\ Analyzer.subprocess self = None.
Proof.
  unfold Analyzer.__init__.
  destruct (kw_unexpected Analyzer.params kw); [discriminate|].
  destruct (kw_lookup kw "backend"); [|discriminate].
  intros H. injection H as <-. now split.
Qed.

Lemma held_socket (self : Analyzer.t) (h : Analyzer.handle) :
  Analyzer.held self = Some h ->
  match h with
  | Analyzer.SocketHandle s => Analyzer.socket self = Some s
  | Analyzer.SubprocessHandle p =>
      Analyzer.socket self = None /\ Analyzer.subprocess self = Some p
  end.
Proof.
  unfold Analyzer.held.
  destruct (Analyzer.socket self) as [s|].
  - intros H. now injection H as <-.
  - destruct (Analyzer.subprocess self) as [p|]; [|discriminate].
    intros H. now injection H as <-.
Qed.

Lemma held_install (self : Analyzer.t) (h : Analyzer.handle) :
  Analyzer.socket self = None ->
  Analyzer.held (Analyzer.install self h) = Some h.
Proof.
  intros Hs. destruct h as [s|p]; unfold Analyzer.held; simpl.
  - reflexivity.
  - now rewrite Hs.
Qed.

(** A query on an Analyzer that holds a backend goes to that backend and
    constructs nothing. *)
Lemma query_held (self : Analyzer.t) (h : Analyzer.handle)
  (input_str pattern : string) (st : St) :
  Analyzer.held self = Some h ->
  Analyzer.query self input_str pattern st =
    (let (w, r) := Analyzer.backend_query h input_str pattern (world st) in
     ({| world := w;
         trace := trace st ++ [Analyzer.query_event h (input_str, pattern)] |},
      (self, r))).
Proof.
  intros H. apply held_socket in H.
  unfold Analyzer.query, Analyzer.ensure_backend.
  destruct h as [s|p]; simpl.
  - rewrite H. simpl. rewrite H. unfold call.
    destruct (Socket_query s input_str pattern (world st)). reflexivity.
  - destruct H as [Hs Hp]. rewrite Hs, Hp. simpl. rewrite Hs, Hp. unfold call.
    destruct (Subprocess_query p input_str pattern (world st)). reflexivity.
Qed.

(** The first query on a new Analyzer constructs the backend that [server]
    selects and then goes to it. *)
Lemma query_first (self : Analyzer.t) (h : Analyzer.handle) (w1 : World)
  (input_str pattern : string) (st : St) :
  Analyzer.socket self = None ->
  Analyzer.subprocess self = None ->
  Analyzer.construct self (world st) = (w1, inr h) ->
  Analyzer.query self input_str pattern st =
    (let (w, r) := Analyzer.backend_query h input_str pattern w1 in
     ({| world := w;
         trace := (trace st ++ [Analyzer.construction_event self])
                    ++ [Analyzer.query_event h (input_str, pattern)] |},
      (Analyzer.install self h, r))).
Proof.
  intros Hs Hp Hc.
  unfold Analyzer.query, Analyzer.ensure_backend, Analyzer.construct,
    Analyzer.construction_event in *.
  rewrite Hs, Hp. simpl.
  destruct (is_not_None (Analyzer.server self)); unfold call.
  - destruct (Socket_new _ _ _ (world st)) as [w' [e|s]]; [discriminate|].
    injection Hc as <- <-. simpl.
    destruct (Socket_query s input_str pattern w'). reflexivity.
  - destruct (Subprocess_new _ (world st)) as [w' [e|p]]; [discriminate|].
    injection Hc as <- <-. simpl. rewrite Hs. simpl.
    destruct (Subprocess_query p input_str pattern w'). reflexivity.
Qed.

Lemma queries_held (self : Analyzer.t) (h : Analyzer.handle)
  (requests : list (string * string)) (st : St) :
  Analyzer.held self = Some h ->
  exists st' outcomes,
    Analyzer.queries self requests st = (st', (self, outcomes)) /\
    trace st' = trace st ++ map (Analyzer.query_event h) requests /\
    List.length outcomes = List.length requests.
Proof.
  intros H. revert st.
  induction requests as [|[i p] requests IH]; intros st; simpl.
  - exists st, []. now rewrite app_nil_r.
  - rewrite (query_held self h i p st H).
    destruct (Analyzer.backend_query h i p (world st)) as [w r].
    destruct (IH {| world := w;
                    trace := trace st ++ [Analyzer.query_event h (i, p)] |})
      as (st' & outs & Hq & Ht & Hl).
    rewrite Hq. exists st', (r :: outs). split; [reflexivity|]. split.
    + rewrite Ht. simpl. now rewrite <- app_assoc.
    + simpl. now rewrite Hl.
Qed.

Lemma constructions_queries (h : Analyzer.handle) (requests : list (string * string)) :
  Analyzer.constructions (map (Analyzer.query_event h) requests) = [].
Proof.
  unfold Analyzer.constructions.
  induction requests as [|r requests IH]; simpl; [reflexivity|].
  destruct h; simpl; exact IH.
Qed.

Lemma construction_event_is_construction (self : Analyzer.t) :
  is_construction (Analyzer.construction_event self) = true.
Proof.
  unfold Analyzer.construction_event.
  destruct (is_not_None (Analyzer.server self)); reflexivity.
Qed.

(** C4, as the code has it.  Take an Analyzer as [__init__] builds it and
    call [query] on it for each of N >= 1 requests.  If the constructor that
    the first call invokes returns a backend object [h], then the calls made
    to the outside are one construction, of a Socket when a server was given
    and of a Subprocess otherwise, followed by the N queries, all on [h]; the
    trace gains exactly one construction event and the Analyzer ends holding
    [h]. *)
Theorem backend_constructed_once (kw : kwargs) (self : Analyzer.t)
  (requests : list (string * string)) (st : St) (w1 : World) (h : Analyzer.handle) :
  Analyzer.__init__ kw = inr self ->
  requests <> [] ->
  Analyzer.construct self (world st) = (w1, inr h) ->
  exists st' self' outcomes,
    Analyzer.queries self requests st = (st', (self', outcomes)) /\
    trace st' =
      trace st ++ Analyzer.construction_event self
                  :: map (Analyzer.query_event h) requests /\
    Analyzer.constructions (trace st') =
      Analyzer.constructions (trace st) ++ [Analyzer.construction_event self] /\
    Analyzer.construction_event self =
      (if is_not_None (Analyzer.server self)
       then NewSocket (Analyzer.server self) (Analyzer.port self)
                      (Analyzer.socket_option self)
       else NewSubprocess (Analyzer.command self)) /\
    (match h with
     | Analyzer.SocketHandle _ => is_not_None (Analyzer.server self) = true
     | Analyzer.SubprocessHandle _ => is_not_None (Analyzer.server self) = false
     end) /\
    Analyzer.held self' = Some h /\
    List.length outcomes = List.length requests.
Proof.
  intros Hinit Hne Hc.
  destruct (init_no_backend kw self Hinit) as [Hs Hp].
  destruct requests as [|[i p] requests]; [contradiction|]. simpl.
  rewrite (query_first self h w1 i p st Hs Hp Hc).
  destruct (Analyzer.backend_query h i p w1) as [w r].
  pose proof (held_install self h Hs) as Hheld.
  destruct (queries_held (Analyzer.install self h) h requests
              {| world := w;
                 trace := (trace st ++ [Analyzer.construction_event self])
                            ++ [Analyzer.query_event h (i, p)] |} Hheld)
    as (st' & outs & Hq & Ht & Hl).
  rewrite Hq. exists st', (Analyzer.install self h), (r :: outs).
  assert (Htrace : trace st' =
                   trace st ++ Analyzer.construction_event self
                     :: Analyzer.query_event h (i, p)
                     :: map (Analyzer.query_event h) requests).
  { rewrite Ht. simpl. now rewrite <- !app_assoc. }
  split; [reflexivity|]. split; [exact Htrace|]. split; [|split; [|split; [|split]]].
  - rewrite Htrace. unfold Analyzer.constructions.
    rewrite filter_app. f_equal. simpl.
    rewrite construction_event_is_construction.
    f_equal. change (filter is_construction
                       (map (Analyzer.query_event h) ((i, p) :: requests)) = []).
    apply constructions_queries.
  - reflexivity.
  - unfold Analyzer.construct in Hc.
    destruct (is_not_None (Analyzer.server self)).
    + destruct (Socket_new _ _ _ (world st)) as [w' [e|s]]; [discriminate|].
      now injection Hc as <- <-.
    + destruct (Subprocess_new _ (world st)) as [w' [e|q]]; [discriminate|].
      now injection Hc as <- <-.
  - exact Hheld.
  - simpl. now rewrite Hl.
Qed.

End AnalyzerFacts.

Lemma backend_constructed_once_witness :
  Analyzer.__init__ Toy.local_kw = inr Toy.local_analyzer /\
  Toy.three_requests <> [] /\
  exists st' self' outcomes,
    Analyzer.queries Toy.local_analyzer Toy.three_requests Toy.st0
      = (st', (self', outcomes)) /\
    Analyzer.constructions (trace st') = [NewSubprocess (PList ["knp"; "-tab"])] /\
    Analyzer.held self' = Some Toy.subprocess0.
Proof.
  assert (H1 : Analyzer.__init__ Toy.local_kw = inr Toy.local_analyzer)
    by reflexivity.
  assert (H2 : Toy.three_requests <> []) by discriminate.
  assert (H3 : Analyzer.construct Toy.local_analyzer (world Toy.st0)
               = (Toy.world1, inr Toy.subprocess0)) by reflexivity.
  split; [exact H1|]. split; [exact H2|].
  destruct (backend_constructed_once Toy.local_kw Toy.local_analyzer
              Toy.three_requests Toy.st0 Toy.world1 Toy.subprocess0 H1 H2 H3)
    as (st' & self' & outs & Hq & _ & Hc & _ & _ & Hh & _).
  exists st', self', outs. repeat split; assumption.
Defined.

(** C4, as stated, fails.  An Analyzer built by [__init__] for a server
    that refuses the connection: two calls of [query] invoke the constructor
    twice, not once, and no backend is ever held.  The first statement of
    [query] tests the two attributes on every call, and a constructor that
    raises assigns neither. *)
Lemma construction_repeats_after_failure :
  Analyzer.__init__ Toy.unreachable_kw = inr Toy.unreachable_analyzer /\
  exists st' self' outcomes,
    Analyzer.queries Toy.unreachable_analyzer [("a", "^EOS$"); ("b", "^EOS$")] Toy.st0
      = (st', (self', outcomes)) /\
    Analyzer.constructions (trace st')
      = [NewSocket (PStr "localhost") PNone PNone;
         NewSocket (PStr "localhost") PNone PNone] /\
    Analyzer.held self' = None /\
    ~ (exists ev, Analyzer.constructions (trace st') = [ev]).
Proof.
  split; [reflexivity|].
  do 3 eexists. split; [vm_compute; reflexivity|].
  split; [reflexivity|]. split; [reflexivity|].
  intros [ev Hev]. discriminate.
Qed.

(** With a server the backend is a Socket, constructed by the first of the
    three calls only. *)
Example socket_selected_sample :
  fst (Analyzer.queries Toy.remote_analyzer Toy.three_requests Toy.st0)
    = {| world := Toy.world1;
         trace := [NewSocket (PStr "localhost") (PInt 31000) (PStr "RUN -tab -normal");
                   SocketQuery "a" "^EOS$"; SocketQuery "b" "^EOS$";
                   SocketQuery "c" "^EOS$"] |}.
Proof. vm_compute. reflexivity. Qed.

(** When the constructor raises, the call raises, the Analyzer is left
    without a backend, and the next call invokes the constructor again. *)
Example failed_construction_sample :
  Analyzer.queries Toy.unreachable_analyzer [("a", "^EOS$"); ("b", "^EOS$")] Toy.st0
    = ({| world := world Toy.st0;
          trace := [NewSocket (PStr "localhost") PNone PNone;
                    NewSocket (PStr "localhost") PNone PNone] |},
       (Toy.unreachable_analyzer,
        [inl (External "connection refused"); inl (External "connection refused")])).
Proof. vm_compute. reflexivity. Qed.

(** ** Constructing a KNP object *)

Section KNPInitFacts.
Context {E : Externals}.

(** C9.  Whatever its arguments and whatever the state of the outside
    world, [KNP(...)] raises [TypeError] when it calls [Analyzer]: the call
    passes the keyword [timeout] (after [multithreading] in the subprocess
    branch), which [Analyzer.__init__] does not accept.  The state is left as
    it was: neither the rcfile test nor the search for the executable is
    reached, and no KNP object is returned. *)
Theorem KNP_init_raises_TypeError (a : KNP.args) (st : St) :
  KNP.__init__ a st =
    (st,
     inl (TypeError
            ("__init__() got an unexpected keyword argument '"
             ++ (if is_not_None (KNP.arg_server a) then "timeout" else "multithreading")
             ++ "'"))).
Proof.
  unfold KNP.__init__, KNP.init_with, mbind, lift.
  destruct (is_not_None (KNP.arg_server a)); reflexivity.
Qed.

(** C5.  Whatever [Analyzer(...)] does, if the KNP command is not found as
    an executable, or the rcfile argument is not empty and is not an existing
    file, then [KNP(...)] ends in an exception.  Up to that point it has only
    read the outside world, testing the rcfile at most once and searching
    for the command at most once, has sent no query and has constructed no
    Juman; when the [Analyzer] call itself returned, the exception is the
    one of the failed test. *)
Theorem configuration_failure_at_construction
  (Analyzer_ : kwargs -> result Analyzer.t) (a : KNP.args) (st : St) :
  find_executable (KNP.arg_command a) (world st) = None \/
  (KNP.arg_rcfile a <> "" /\
   isfile (expanduser (KNP.arg_rcfile a) (world st)) (world st) = false) ->
  exists st' e delta,
    KNP.init_with Analyzer_ a st = (st', inl e) /\
    world st' = world st /\
    trace st' = (trace st ++ delta)%list /\
    requests_of delta = [] /\
    (delta = [] \/
     delta = [IsFile (KNP.arg_rcfile a)] \/
     delta = [FindExecutable (KNP.arg_command a)] \/
     delta = [IsFile (KNP.arg_rcfile a); FindExecutable (KNP.arg_command a)]) /\
    (delta <> [] ->
     e = Exception ("Can't read rcfile (" ++ KNP.arg_rcfile a ++ ")!") \/
     e = Exception ("Can't find KNP command: " ++ KNP.arg_command a)).
Proof.
  intros H. unfold KNP.init_with, mbind, lift.
  match goal with
  | |- context [if is_not_None ?s then ?x else ?y] =>
      destruct (if is_not_None s then x else y) as [e|an]
  end.
  - exists st, e, []. rewrite app_nil_r.
    repeat split; auto. intros Hne. now contradiction Hne.
  - destruct (KNP.arg_rcfile a) as [|c rc] eqn:Hrc; simpl.
    + destruct H as [H | [H _]]; [|contradiction].
      unfold ask, mraise. simpl. rewrite H.
      eexists _, _, [FindExecutable (KNP.arg_command a)].
      repeat split; simpl; auto.
    + unfold ask, mraise, mret. simpl.
      destruct (isfile (expanduser (String c rc) (world st)) (world st)) eqn:Hf; simpl.
      * destruct H as [H | [_ H]]; [|discriminate].
        rewrite H.
        eexists _, _, [IsFile (String c rc); FindExecutable (KNP.arg_command a)].
        repeat split; simpl; auto. now rewrite <- app_assoc.
      * eexists _, _, [IsFile (String c rc)].
        repeat split; simpl; auto.
Qed.

End KNPInitFacts.

Lemma configuration_failure_at_construction_witness :
  find_executable "nknp" (world Toy.st0) = None /\
  (exists st' e,
      KNP.init_with (fun _ => inr Toy.local_analyzer) Toy.no_command Toy.st0
        = (st', inl e) /\
      world st' = world Toy.st0) /\
  (exists st' e,
      KNP.__init__ Toy.no_command Toy.st0 = (st', inl e) /\
      world st' = world Toy.st0).
Proof.
  assert (H : find_executable (KNP.arg_command Toy.no_command) (world Toy.st0) = None)
    by reflexivity.
  split; [exact H|]. split.
  - destruct (configuration_failure_at_construction
                (fun _ => inr Toy.local_analyzer) Toy.no_command Toy.st0 (or_introl H))
      as (st' & e & delta & Hi & Hw & _).
    exists st', e. split; assumption.
  - destruct (configuration_failure_at_construction
                Analyzer.__init__ Toy.no_command Toy.st0 (or_introl H))
      as (st' & e & delta & Hi & Hw & _).
    exists st', e. split; assumption.
Defined.

(** With an [Analyzer] that accepts the call, a missing command and a
    missing rcfile give the two messages of the source. *)
Example configuration_checks_sample :
  KNP.init_with (fun _ => inr Toy.local_analyzer) Toy.no_command Toy.st0
    = ({| world := world Toy.st0; trace := [FindExecutable "nknp"] |},
       inl (Exception "Can't find KNP command: nknp")) /\
  KNP.init_with (fun _ => inr Toy.local_analyzer) Toy.no_rcfile Toy.st0
    = ({| world := world Toy.st0; trace := [IsFile "~/.knprc"] |},
       inl (Exception "Can't read rcfile (~/.knprc)!")).
Proof. split; vm_compute; reflexivity. Qed.

(** ** Parsing through the Analyzer *)

Section KNPParseFacts.
Context {E : Externals}.

Lemma requests_of_app (evs1 evs2 : list event) :
  requests_of (evs1 ++ evs2)%list = (requests_of evs1 ++ requests_of evs2)%list.
Proof. unfold requests_of. apply flat_map_app. Qed.

(** A query that returns a response sent exactly its request. *)
Lemma query_returns (self self' : Analyzer.t) (input_str pattern response : string)
  (st st' : St) :
  Analyzer.query self input_str pattern st = (st', (self', inr response)) ->
  exists delta,
    trace st' = (trace st ++ delta)%list /\
    requests_of delta = [(input_str, pattern)].
Proof.
  unfold Analyzer.query, Analyzer.ensure_backend, call.
  destruct (negb (Analyzer.truthy (Analyzer.socket self))
            && negb (Analyzer.truthy (Analyzer.subprocess self))).
  - destruct (is_not_None (Analyzer.server self)).
    + destruct (Socket_new _ _ _ (world st)) as [w [e|s]]; [discriminate|].
      simpl. destruct (Socket_query s input_str pattern w) as [w' r].
      simpl. intros H. injection H as <- _ _.
      eexists [_; _]. simpl. rewrite <- app_assoc. split; reflexivity.
    + destruct (Subprocess_new _ (world st)) as [w [e|p]]; [discriminate|].
      simpl. destruct (Analyzer.socket self) as [s|].
      * destruct (Socket_query s input_str pattern w) as [w' r].
        simpl. intros H. injection H as <- _ _.
        eexists [_; _]. simpl. rewrite <- app_assoc. split; reflexivity.
      * destruct (Subprocess_query p input_str pattern w) as [w' r].
        simpl. intros H. injection H as <- _ _.
        eexists [_; _]. simpl. rewrite <- app_assoc. split; reflexivity.
  - destruct (Analyzer.socket self) as [s|].
    + destruct (Socket_query s input_str pattern (world st)) as [w' r].
      simpl. intros H. injection H as <- _ _. eexists [_]. split; reflexivity.
    + destruct (Analyzer.subprocess self) as [p|]; [|discriminate].
      destruct (Subprocess_query p input_str pattern (world st)) as [w' r].
      simpl. intros H. injection H as <- _ _. eexists [_]. split; reflexivity.
Qed.

Lemma query_blocks_returns (blocks : list string) (an an' : Analyzer.t)
  (pattern : string) (acc blists : list BList) (st st' : St) :
  KNP.query_blocks an pattern blocks acc st = (st', (an', inr blists)) ->
  exists delta responses new,
    trace st' = (trace st ++ delta)%list /\
    requests_of delta = map (fun b => (b, KNP.full_line pattern)) blocks /\
    List.length responses = List.length blocks /\
    Forall2 (fun response blist =>
               BList_new (response ++ "EOS" ++ nl) pattern DEFAULT = inr blist)
            responses new /\
    blists = (acc ++ new)%list.
Proof.
  revert an acc st.
  induction blocks as [|b blocks IH]; intros an acc st; cbn [KNP.query_blocks].
  - intros H. injection H as <- _ <-. exists [], [], [].
    rewrite !app_nil_r. repeat split. constructor.
  - destruct (Analyzer.query an b (KNP.full_line pattern) st)
      as [st1 [an1 [e|response]]] eqn:Hq; [discriminate|].
    cbn iota beta.
    destruct (BList_new (response ++ "EOS" ++ nl) pattern DEFAULT)
      as [e|blist] eqn:Hb; [discriminate|].
    intros H. apply IH in H.
    destruct H as (delta & responses & new & Ht & Hr & Hl & Hf & Hbl).
    destruct (query_returns _ _ _ _ _ _ _ Hq) as (delta1 & Ht1 & Hr1).
    exists (delta1 ++ delta)%list, (response :: responses), (blist :: new).
    repeat split.
    + rewrite Ht, Ht1. now rewrite <- app_assoc.
    + rewrite requests_of_app, Hr1, Hr. reflexivity.
    + simpl. now rewrite Hl.
    + now constructor.
    + rewrite Hbl, <- app_assoc. reflexivity.
Qed.

Lemma query_blocks_served (blocks : list string) (an an' : Analyzer.t)
  (pattern : string) (acc blists : list BList) (st st' : St) :
  KNP.query_blocks an pattern blocks acc st = (st', (an', inr blists)) ->
  exists new,
    blists = (acc ++ new)%list /\
    KNP.served pattern an st blocks new an' st'.
Proof.
  revert an acc st.
  induction blocks as [|b blocks IH]; intros an acc st; cbn [KNP.query_blocks].
  - intros H. injection H as <- <- <-. exists []. rewrite app_nil_r.
    split; [reflexivity|constructor].
  - destruct (Analyzer.query an b (KNP.full_line pattern) st)
      as [st1 [an1 [e|response]]] eqn:Hq; [discriminate|].
    cbn iota beta.
    destruct (BList_new (response ++ "EOS" ++ nl) pattern DEFAULT)
      as [e|blist] eqn:Hb; [discriminate|].
    intros H. apply IH in H. destruct H as (new & Hbl & Hs).
    exists (blist :: new). split.
    + rewrite Hbl, <- app_assoc. reflexivity.
    + econstructor; eassumption.
Qed.

(** C7.  When [parse_juman_result] returns a value: in lattice-all mode
    the converter produced blocks from the raw input, the queries sent to
    the backend are exactly one per block, in the order of the blocks, each
    with the block as input and the pattern [^pattern$], and the value is the
    list whose element at each position is the [BList] built from the
    response to the block at that position, followed by [EOS] and a newline;
    in any other mode exactly one query was sent, with the raw input and the
    same pattern, and the value is the one [BList] built from its response. *)
Theorem parse_juman_result_queries (self self' : KNP.t) (juman_str : string)
  (juman_format : JUMAN_FORMAT) (st st' : St) (value : KNP.parsed) :
  KNP.parse_juman_result self juman_str juman_format st = (st', (self', inr value)) ->
  exists delta,
    trace st' = (trace st ++ delta)%list /\
    (juman_format = LATTICE_ALL ->
     exists blocks responses blists,
       KNP.lattice_all2juman_lines juman_str = inr blocks /\
       requests_of delta =
         map (fun b => (b, "^" ++ KNP.pattern self ++ "$")) blocks /\
       List.length responses = List.length blocks /\
       Forall2 (fun response blist =>
                  BList_new (response ++ "EOS" ++ nl) (KNP.pattern self) DEFAULT
                    = inr blist)
               responses blists /\
       KNP.served (KNP.pattern self) (KNP.analyzer self) st blocks blists
                  (KNP.analyzer self') st' /\
       value = KNP.Many blists) /\
    (juman_format <> LATTICE_ALL ->
     exists response blist,
       requests_of delta = [(juman_str, "^" ++ KNP.pattern self ++ "$")] /\
       Analyzer.query (KNP.analyzer self) juman_str
                      ("^" ++ KNP.pattern self ++ "$") st
         = (st', (KNP.analyzer self', inr response)) /\
       BList_new response (KNP.pattern self) juman_format = inr blist /\
       value = KNP.One blist).
Proof.
  unfold KNP.parse_juman_result.
  destruct (format_eqb juman_format LATTICE_ALL) eqn:Hfmt.
  - apply format_eqb_eq in Hfmt.
    destruct (KNP.lattice_all2juman_lines juman_str) as [e|blocks] eqn:Hconv;
      [discriminate|].
    cbn iota beta.
    destruct (KNP.query_blocks (KNP.analyzer self) (KNP.pattern self) blocks [] st)
      as [st1 [an1 [e|blists]]] eqn:Hq; [discriminate|].
    intros H. injection H as <- <- <-.
    destruct (query_blocks_returns _ _ _ _ _ _ _ _ Hq)
      as (delta & responses & new & Ht & Hr & Hl & Hf & Hbl).
    destruct (query_blocks_served _ _ _ _ _ _ _ _ Hq) as (new' & Hbl' & Hs).
    exists delta. split; [exact Ht|]. split.
    + intros _. exists blocks, responses, blists.
      simpl in Hbl, Hbl'. subst new new'. repeat split; assumption.
    + intros Hne. contradiction.
  - destruct (Analyzer.query (KNP.analyzer self) juman_str
                (KNP.full_line (KNP.pattern self)) st)
      as [st1 [an1 [e|response]]] eqn:Hq; [discriminate|].
    cbn iota beta.
    destruct (BList_new response (KNP.pattern self) juman_format)
      as [e|blist] eqn:Hb; [discriminate|].
    intros H. injection H as <- <- <-.
    destruct (query_returns _ _ _ _ _ _ _ Hq) as (delta & Ht & Hr).
    exists delta. split; [exact Ht|]. split.
    + intros Heq. apply format_eqb_eq in Heq. congruence.
    + intros _. exists response, blist. repeat split; assumption.
Qed.

(** C8.  [reparse_knp_result] is [parse_juman_result]: the same value, the
    same final state and the same calls, for every input and every format. *)
Theorem reparse_knp_result_is_parse_juman_result (self : KNP.t) (s : string)
  (f : JUMAN_FORMAT) (st : St) :
  KNP.reparse_knp_result self s f st = KNP.parse_juman_result self s f st.
Proof. reflexivity. Qed.

End KNPParseFacts.

Lemma served_two {E : Externals} (pattern b1 b2 : string) (an an' : Analyzer.t)
  (st st' : St) (blists : list BList) :
  KNP.served pattern an st [b1; b2] blists an' st' ->
  exists an1 st1 r1 r2 bl1 bl2,
    Analyzer.query an b1 (KNP.full_line pattern) st = (st1, (an1, inr r1)) /\
    BList_new (r1 ++ "EOS" ++ nl) pattern DEFAULT = inr bl1 /\
    Analyzer.query an1 b2 (KNP.full_line pattern) st1 = (st', (an', inr r2)) /\
    BList_new (r2 ++ "EOS" ++ nl) pattern DEFAULT = inr bl2 /\
    blists = [bl1; bl2].
Proof.
  intros H.
  inversion H as [|? an1 ? ? st1 ? ? r1 ? bl1 rest Hq1 Hb1 H']; subst.
  inversion H' as [|? an2 ? ? st2 ? ? r2 ? bl2 rest' Hq2 Hb2 H'']; subst.
  inversion H''; subst.
  exists an1, st1, r1, r2, bl1, bl2. repeat split; assumption.
Qed.

Lemma parse_juman_result_queries_witness :
  exists st' self' b1 b2,
    KNP.lattice_all2juman_lines Samples.lattice = inr [b1; b2] /\
    KNP.parse_juman_result Toy.knp Samples.lattice Toy.lattice_all Toy.st0
      = (st', (self',
               inr (KNP.Many [Toy.blist_of ((b1 ++ nl) ++ "EOS" ++ nl);
                              Toy.blist_of ((b2 ++ nl) ++ "EOS" ++ nl)]))) /\
    requests_of (trace st') = [(b1, "^EOS$"); (b2, "^EOS$")].
Proof.
  destruct (KNP.parse_juman_result Toy.knp Samples.lattice Toy.lattice_all Toy.st0)
    as [st' [self' r]] eqn:Hp.
  assert (Hr : exists value, r = inr value).
  { vm_compute in Hp. injection Hp as _ _ <-. now eexists. }
  destruct Hr as (value & ->).
  destruct (parse_juman_result_queries _ _ _ _ _ _ _ Hp) as (delta & Ht & Hall & _).
  destruct (Hall eq_refl)
    as (blocks & responses & blists & Hc & Hreq & _ & _ & Hs & ->).
  destruct (KNP.lattice_all2juman_lines Samples.lattice) as [e|bs] eqn:Hconv;
    [discriminate|].
  injection Hc as ->.
  assert (Hb : exists b1 b2, blocks = [b1; b2]).
  { vm_compute in Hconv. injection Hconv as <-. now do 2 eexists. }
  destruct Hb as (b1 & b2 & ->).
  destruct (served_two _ _ _ _ _ _ _ _ Hs)
    as (an1 & st1 & r1 & r2 & bl1 & bl2 & Hq1 & Hb1 & Hq2 & Hb2 & ->).
  exists st', self', b1, b2. split; [first [exact Hconv | reflexivity]|].
  vm_compute in Hq1. injection Hq1 as <- <- <-.
  vm_compute in Hq2. injection Hq2 as Hst' _ <-.
  vm_compute in Hb1, Hb2. injection Hb1 as <-. injection Hb2 as <-.
  split; [first [exact Hp | reflexivity]|].
  rewrite <- Hst'. reflexivity.
Defined.

(** In default mode the sample is sent as it is, in one query. *)
Example default_mode_sample :
  requests_of
    (trace (fst (KNP.parse_juman_result Toy.knp Samples.lattice Toy.default Toy.st0)))
    = [(Samples.lattice, "^EOS$")] /\
  snd (snd (KNP.parse_juman_result Toy.knp Samples.lattice Toy.default Toy.st0))
    = inr (KNP.One (Toy.blist_of (Samples.lattice ++ nl))).
Proof. split; vm_compute; reflexivity. Qed.

(** * Further properties *)

(** ** Which line makes the converter raise *)

Lemma find_first (A : Type) (f : A -> bool) (pre post : list A) (x : A) :
  Forall (fun y => f y = false) pre -> f x = true ->
  find f (pre ++ x :: post)%list = Some x.
Proof.
  intros Hpre Hx. induction Hpre as [|y pre Hy _ IH]; simpl.
  - now rewrite Hx.
  - now rewrite Hy.
Qed.

(** X1.  The converter stops at the first morpheme line with fewer than 18
    fields and the index of its [IndexError] is read off that line alone: 1
    when it has fewer than 2 fields, 6 when it has 2 to 6, and 17 when it has
    7 to 17; the lines after it play no part. *)
Theorem first_short_line_decides (s : string) (pre post : list string) (line : string) :
  Py.split LF s = (pre ++ line :: post)%list ->
  Forall (fun l => KNP.is_mrph_line l = true -> 18 <= KNP.n_fields l) pre ->
  KNP.is_mrph_line line = true ->
  KNP.n_fields line < 18 ->
  KNP.lattice_all2juman_lines s =
    inl (IndexError (if (KNP.n_fields line <? 2)%nat then 1
                     else if (KNP.n_fields line <=? 6)%nat then 6 else 17)).
Proof.
  intros Hs Hpre Hm Hn.
  rewrite lattice_all2juman_lines_spec, Hs.
  rewrite (find_first _ KNP.malformed pre post line).
  - reflexivity.
  - eapply Forall_impl; [|exact Hpre]. intros l Hl. cbv beta in Hl.
    unfold KNP.malformed. destruct (KNP.is_mrph_line l); [|reflexivity].
    simpl. apply Nat.ltb_ge. now apply Hl.
  - unfold KNP.malformed. rewrite Hm. simpl. now apply Nat.ltb_lt.
Qed.

Lemma first_short_line_decides_witness :
  KNP.lattice_all2juman_lines
    (String.concat nl [Samples.akai_1; Samples.short_10; Samples.short_2])
  = inl (IndexError 17).
Proof.
  apply (first_short_line_decides _ [Samples.akai_1] [Samples.short_2] Samples.short_10).
  - vm_compute. reflexivity.
  - constructor; [|constructor]. intros _. vm_compute. lia.
  - reflexivity.
  - vm_compute. lia.
Defined.

(** X2.  The converter raises nothing but [IndexError], with index 1, 6 or
    17, and raises only when some morpheme line of the input has fewer than
    18 tab-separated fields. *)
Theorem converter_raises_only_IndexError (s : string) (e : exn) :
  KNP.lattice_all2juman_lines s = inl e ->
  (e = IndexError 1 \/ e = IndexError 6 \/ e = IndexError 17) /\
  exists line, In line (KNP.mrph_lines s) /\ KNP.n_fields line < 18.
Proof.
  intros H. destruct (lattice_all2juman_lines_raises s e H) as (line & Hin & Hn & ->).
  split; [|now exists line].
  unfold KNP.error_site.
  destruct (KNP.n_fields line <? 2)%nat; [now left|].
  destruct (KNP.n_fields line <=? 6)%nat; [right; now left|right; now right].
Qed.

Lemma converter_raises_only_IndexError_witness :
  KNP.lattice_all2juman_lines Samples.short_2 = inl (IndexError 6) /\
  exists line, In line (KNP.mrph_lines Samples.short_2) /\ KNP.n_fields line < 18.
Proof.
  assert (H : KNP.lattice_all2juman_lines Samples.short_2 = inl (IndexError 6))
    by (vm_compute; reflexivity).
  split; [exact H|].
  exact (proj2 (converter_raises_only_IndexError Samples.short_2 (IndexError 6) H)).
Defined.

(** ** What the converter reads of its input *)

Lemma find_malformed_filter (lines : list string) :
  find KNP.malformed lines = find KNP.malformed (filter KNP.is_mrph_line lines).
Proof.
  induction lines as [|line lines IH]; simpl; [reflexivity|].
  unfold KNP.malformed at 1.
  destruct (KNP.is_mrph_line line) eqn:Hm; simpl.
  - unfold KNP.malformed at 2. rewrite Hm. simpl.
    destruct (KNP.n_fields line <? 18)%nat; [reflexivity|exact IH].
  - exact IH.
Qed.

Lemma fold_step_ok_filter (lines : list string) (st1 st2 : KNP.conv_state) :
  KNP.prev_id st1 = KNP.prev_id st2 ->
  KNP.juman_lines st1 = KNP.juman_lines st2 ->
  KNP.prev_id (fold_left KNP.step_ok lines st1)
    = KNP.prev_id (fold_left KNP.step_ok (filter KNP.is_mrph_line lines) st2) /\
  KNP.juman_lines (fold_left KNP.step_ok lines st1)
    = KNP.juman_lines (fold_left KNP.step_ok (filter KNP.is_mrph_line lines) st2).
Proof.
  revert st1 st2. induction lines as [|line lines IH]; intros st1 st2 Hp Hj; simpl.
  - now split.
  - destruct (KNP.is_mrph_line line) eqn:Hm; simpl.
    + apply IH; rewrite !(step_ok_mrph _ line Hm); cbn; now rewrite Hp, ?Hj.
    + destruct (step_ok_skip st1 line Hm) as [Hp1 Hj1].
      apply IH; congruence.
Qed.

(** X3.  The output of the converter is a function of the morpheme lines
    and of the last comment line: two inputs with the same morpheme lines in
    the same order and the same last comment give the same result, value or
    exception.  An [EOS] line in the middle of the input or a comment that a
    later one replaces changes nothing; in particular [EOS] does not reset
    [prev_id] and does not separate sentences. *)
Theorem converter_reads_morpheme_lines_and_comment (s1 s2 : string) :
  KNP.mrph_lines s1 = KNP.mrph_lines s2 ->
  KNP.tracked_comment s1 = KNP.tracked_comment s2 ->
  KNP.lattice_all2juman_lines s1 = KNP.lattice_all2juman_lines s2.
Proof.
  intros Hm Hc. rewrite !lattice_all2juman_lines_spec.
  rewrite (find_malformed_filter (Py.split LF s1)),
          (find_malformed_filter (Py.split LF s2)).
  fold (KNP.mrph_lines s1). fold (KNP.mrph_lines s2). rewrite Hm.
  destruct (find KNP.malformed (KNP.mrph_lines s2)); [reflexivity|].
  assert (C : forall s,
             KNP.comment (fold_left KNP.step_ok (Py.split LF s) KNP.conv_init)
             = KNP.tracked_comment s)
    by (intros s; apply fold_step_ok_comment).
  assert (J : forall s,
             KNP.juman_lines (fold_left KNP.step_ok (Py.split LF s) KNP.conv_init)
             = KNP.juman_lines (fold_left KNP.step_ok (KNP.mrph_lines s) KNP.conv_init))
    by (intros s; apply fold_step_ok_filter; reflexivity).
  unfold KNP.rank2juman_lines. rewrite !C, !J, Hm, Hc. reflexivity.
Qed.

Lemma converter_reads_morpheme_lines_and_comment_witness :
  KNP.lattice_all2juman_lines Samples.interleaved
    = KNP.lattice_all2juman_lines Samples.lattice.
Proof.
  apply converter_reads_morpheme_lines_and_comment; vm_compute; reflexivity.
Defined.

(** ** A lattice of one rank *)

Lemma nodup_constant (r : string) (l : list string) :
  l <> [] -> Forall (fun x => x = r) l -> nodup string_dec l = [r].
Proof.
  induction l as [|x l IH]; intros Hne Hall; [contradiction|].
  apply Forall_cons_iff in Hall. destruct Hall as [Hx Hall]. rewrite Hx. simpl.
  destruct (in_dec string_dec r l) as [Hin|Hnotin].
  - apply IH; [|exact Hall]. intros Hnil. rewrite Hnil in Hin. contradiction.
  - destruct l as [|y l]; [reflexivity|].
    apply Forall_cons_iff in Hall. destruct Hall as [Hy _].
    exfalso. apply Hnotin. left. exact Hy.
Qed.

Lemma rank_lines_single (r : string) (marked : list (string * bool)) :
  Forall (fun lf => KNP.line_ranks (fst lf) = [r]) marked ->
  KNP.rank_lines r marked
    = map (fun lf => KNP.reconstructed (fst lf) (snd lf)) marked.
Proof.
  unfold KNP.rank_lines. induction 1 as [|lf marked Hlf _ IH]; simpl.
  - reflexivity.
  - rewrite Hlf, IH. simpl.
    destruct (string_dec r r) as [_|Hne]; [reflexivity|contradiction].
Qed.

(** X4.  When every morpheme line of a well-formed lattice has the rank list
    [[r]], and there is at least one, the converter returns exactly one
    block: the last comment, then the flat line of every morpheme line, in
    source order and each once, then [EOS]. *)
Theorem single_rank_lattice (s r : string) :
  KNP.well_formed s ->
  KNP.mrph_lines s <> [] ->
  Forall (fun line => KNP.line_ranks line = [r]) (KNP.mrph_lines s) ->
  KNP.lattice_all2juman_lines s =
    inr [KNP.tracked_comment s ++ nl
         ++ Py.join nl (map (fun lf => KNP.reconstructed (fst lf) (snd lf))
                            (KNP.marked_lines s))
         ++ nl ++ "EOS"].
Proof.
  intros Hwf Hne Hall.
  destruct (lattice_all2juman_lines_ok s Hwf) as (ranks & Hb & Hp & _).
  assert (Hd : KNP.distinct_ranks s = [r]).
  { unfold KNP.distinct_ranks, KNP.all_ranks. apply nodup_constant.
    - destruct (KNP.mrph_lines s) as [|l ls]; [contradiction|].
      apply Forall_cons_iff in Hall. destruct Hall as [Hl _].
      simpl. rewrite Hl. discriminate.
    - apply Forall_forall. intros x Hx. apply in_flat_map in Hx.
      destruct Hx as (l & Hl & Hx). rewrite Forall_forall in Hall.
      rewrite (Hall l Hl) in Hx. destruct Hx as [<-|[]]. reflexivity. }
  rewrite Hd in Hp. apply Permutation_sym, Permutation_length_1_inv in Hp.
  subst ranks. rewrite Hb. simpl. unfold KNP.rank_block, KNP.block.
  rewrite rank_lines_single; [reflexivity|].
  apply Forall_forall. intros [l f] Hin. simpl.
  rewrite Forall_forall in Hall. apply Hall.
  unfold KNP.marked_lines in Hin. now apply in_combine_l in Hin.
Qed.

Lemma single_rank_lattice_witness :
  KNP.lattice_all2juman_lines Samples.single_rank =
    inr ["# S-ID:2" ++ nl
         ++ Py.join nl [KNP.reconstructed Samples.akai_1 false;
                        KNP.reconstructed Samples.hana_1 false]
         ++ nl ++ "EOS"].
Proof.
  assert (Hwf : KNP.well_formed Samples.single_rank)
    by (apply well_formedb_true; vm_compute; reflexivity).
  assert (Hne : KNP.mrph_lines Samples.single_rank <> [])
    by (vm_compute; discriminate).
  assert (Hall : Forall (fun line => KNP.line_ranks line = ["1"])
                        (KNP.mrph_lines Samples.single_rank))
    by (vm_compute; repeat constructor).
  exact (single_rank_lattice Samples.single_rank "1" Hwf Hne Hall).
Defined.

(** ** The fields of a record that reach the flat line *)

(** X5.  [lattice2juman_line] reads the fields 5 to 17 of the record and
    nothing else: two records that agree on these thirteen positions, present
    or absent, give the same result, whatever their first five fields and
    whatever follows the eighteenth. *)
Theorem lattice2juman_line_reads_fields_5_to_17
  (values values' : list string) (flag : bool) :
  (forall i, 5 <= i <= 17 -> nth_error values i = nth_error values' i) ->
  KNP.lattice2juman_line values flag = KNP.lattice2juman_line values' flag.
Proof.
  intros H. unfold KNP.lattice2juman_line, Py.index.
  rewrite (H 5), (H 6), (H 7), (H 8), (H 9), (H 10), (H 11), (H 12), (H 13),
          (H 14), (H 15), (H 16), (H 17) by lia.
  reflexivity.
Qed.

Lemma lattice2juman_line_reads_fields_5_to_17_witness :
  KNP.lattice2juman_line (Py.split TAB Samples.akai_1_long) true
    = KNP.lattice2juman_line (Py.split TAB Samples.akai_1) true.
Proof.
  apply lattice2juman_line_reads_fields_5_to_17.
  intros i Hi.
  do 18 (destruct i as [|i]; [first [lia | vm_compute; reflexivity]|]).
  lia.
Defined.

Lemma string_app_assoc (a b c : string) : (a ++ b) ++ c = a ++ b ++ c.
Proof. induction a as [|x a IH]; simpl; [reflexivity|now rewrite IH]. Qed.

Lemma join_split_pipes (s : string) :
  Py.join " " (Py.split "|"%char s) = KNP.pipes_to_spaces s.
Proof.
  unfold Py.join. induction s as [|c s IH]; simpl.
  - reflexivity.
  - destruct (Ascii.eqb c "|"%char).
    + destruct (Py.split "|"%char s) as [|w ws] eqn:Hs.
      * exfalso. revert Hs. apply split_not_nil.
      * simpl in *. now rewrite <- IH.
    + destruct (Py.split "|"%char s) as [|w ws] eqn:Hs.
      * exfalso. revert Hs. apply split_not_nil.
      * rewrite <- IH. destruct ws; reflexivity.
Qed.

(** X6.  The flat line of a record of at least 18 fields is its fields 5, 7,
    8, ..., 16 separated by single spaces, then a space and, between double
    quotes, the tag [代表表記:] with field 6, a space, and field 17 with every
    pipe turned into a space; with the flag set, the whole behind ["@ "]. *)
Theorem flat_line_shape
  (v0 v1 v2 v3 v4 v5 v6 v7 v8 v9 v10 v11 v12 v13 v14 v15 v16 v17 : string)
  (more : list string) (flag : bool) :
  KNP.lattice2juman_line
    ([v0; v1; v2; v3; v4; v5; v6; v7; v8; v9; v10; v11; v12; v13; v14; v15; v16; v17]
       ++ more)%list flag
  = inr ((if flag then "@ " else "")
         ++ v5 ++ " " ++ v7 ++ " " ++ v8 ++ " " ++ v9 ++ " " ++ v10 ++ " " ++ v11
         ++ " " ++ v12 ++ " " ++ v13 ++ " " ++ v14 ++ " " ++ v15 ++ " " ++ v16
         ++ " " ++ dquote ++ ("代表表記:" ++ v6) ++ " " ++ KNP.pipes_to_spaces v17
         ++ dquote).
Proof.
  unfold KNP.lattice2juman_line. cbn [app Py.index nth_error bind ret].
  rewrite <- join_split_pipes.
  assert (Hf : Py.join " " ((KNP.daihyo ++ v6) :: Py.split "|"%char v17)
               = (KNP.daihyo ++ v6) ++ " " ++ Py.join " " (Py.split "|"%char v17)).
  { unfold Py.join. destruct (Py.split "|"%char v17) as [|w ws] eqn:Hs.
    - exfalso. revert Hs. apply split_not_nil.
    - reflexivity. }
  rewrite Hf. unfold ret, Py.join.
  destruct flag; f_equal; simpl; now rewrite !string_app_assoc.
Qed.

(** ** No line is lost *)

Lemma dd_size_append (d : KNP.ddict) (k x : string) :
  KNP.dd_size (KNP.dd_append d k x) = S (KNP.dd_size d).
Proof.
  unfold KNP.dd_size. induction d as [|[k0 xs] d IH]; simpl.
  - reflexivity.
  - destruct (String.eqb k0 k); simpl.
    + rewrite length_app. simpl. lia.
    + rewrite IH. lia.
Qed.

Lemma dd_size_file_under (x : string) (ranks : list string) (d : KNP.ddict) :
  KNP.dd_size (KNP.file_under x ranks d) = KNP.dd_size d + List.length ranks.
Proof.
  unfold KNP.file_under. revert d.
  induction ranks as [|r ranks IH]; intros d; simpl.
  - lia.
  - rewrite IH, dd_size_append. lia.
Qed.

Lemma dd_size_fold (lines : list string) (st : KNP.conv_state) :
  KNP.dd_size (KNP.juman_lines (fold_left KNP.step_ok lines st))
  = KNP.dd_size (KNP.juman_lines st)
    + List.length (flat_map KNP.line_ranks (filter KNP.is_mrph_line lines)).
Proof.
  revert st. induction lines as [|line lines IH]; intros st; simpl.
  - lia.
  - rewrite IH. destruct (KNP.is_mrph_line line) eqn:Hm.
    + rewrite (step_ok_mrph st line Hm). cbn [KNP.juman_lines flat_map].
      rewrite dd_size_file_under, length_app. lia.
    + destruct (step_ok_skip st line Hm) as [_ ->]. reflexivity.
Qed.

(** X7.  On a well-formed lattice the loop files exactly one flat line per
    rank identifier occurrence: the number of lines held by the rank
    dictionary at the end is the total length of the rank lists of the
    morpheme lines.  No line is dropped and none is filed without a rank
    naming it. *)
Theorem one_line_per_rank_occurrence (s : string) :
  KNP.well_formed s ->
  exists st,
    KNP.conv_loop KNP.conv_init (Py.split LF s) = inr st /\
    KNP.dd_size (KNP.juman_lines st) = List.length (KNP.all_ranks s).
Proof.
  intros H. eexists. split; [apply conv_loop_well_formed, H|].
  rewrite dd_size_fold. reflexivity.
Qed.

Lemma one_line_per_rank_occurrence_witness :
  KNP.well_formed Samples.lattice /\
  exists st,
    KNP.conv_loop KNP.conv_init (Py.split LF Samples.lattice) = inr st /\
    KNP.dd_size (KNP.juman_lines st) = 4.
Proof.
  assert (Hwf : KNP.well_formed Samples.lattice)
    by (apply well_formedb_true; vm_compute; reflexivity).
  split; [exact Hwf|].
  destruct (one_line_per_rank_occurrence Samples.lattice Hwf) as (st & Hst & Hn).
  exists st. split; [exact Hst|]. rewrite Hn. vm_compute. reflexivity.
Defined.

(** ** More on the Analyzer *)

Section AnalyzerMore.
Context {E : Externals}.
Local Open Scope list_scope.

(** X8.  [query] never reads the [backend] attribute: the choice between a
    Socket and a Subprocess is made by [server] alone, so an Analyzer behaves
    the same whatever [backend] it was given (one created with
    [backend='socket'] and no server starts a subprocess). *)
Theorem query_ignores_backend (self : Analyzer.t) (b : pyval)
  (input_str pattern : string) (st : St) :
  Analyzer.query (Analyzer.set_backend self b) input_str pattern st =
    (let '(st', (self', r)) := Analyzer.query self input_str pattern st in
     (st', (Analyzer.set_backend self' b, r))).
Proof.
  unfold Analyzer.query, Analyzer.ensure_backend, call. cbn [Analyzer.set_backend
    Analyzer.socket Analyzer.subprocess Analyzer.server Analyzer.port
    Analyzer.socket_option Analyzer.command].
  destruct (Analyzer.socket self) as [s|] eqn:Hs;
    destruct (Analyzer.subprocess self) as [p|] eqn:Hp; cbn;
    rewrite ?Hs, ?Hp; cbn.
  - destruct (Socket_query s input_str pattern (world st)). reflexivity.
  - destruct (Socket_query s input_str pattern (world st)). reflexivity.
  - destruct (Subprocess_query p input_str pattern (world st)). reflexivity.
  - destruct (is_not_None (Analyzer.server self)).
    + destruct (Socket_new _ _ _ (world st)) as [w [e|s]]; cbn; [reflexivity|].
      destruct (Socket_query s input_str pattern w). reflexivity.
    + destruct (Subprocess_new _ (world st)) as [w [e|p]]; cbn; [reflexivity|].
      rewrite Hs. destruct (Subprocess_query p input_str pattern w). reflexivity.
Qed.

Lemma query_construct_raises (self : Analyzer.t)
  (input_str pattern : string) (st : St) (w1 : World) (e : exn) :
  Analyzer.held self = None ->
  Analyzer.construct self (world st) = (w1, inl e) ->
  Analyzer.query self input_str pattern st =
    ({| world := w1; trace := trace st ++ [Analyzer.construction_event self] |},
     (self, inl e)).
Proof.
  unfold Analyzer.held, Analyzer.query, Analyzer.ensure_backend,
    Analyzer.construct, Analyzer.construction_event, call.
  destruct (Analyzer.socket self); [discriminate|].
  destruct (Analyzer.subprocess self); [discriminate|]. intros _. cbn.
  destruct (is_not_None (Analyzer.server self)).
  - destruct (Socket_new _ _ _ (world st)) as [w [e'|s]]; [|discriminate].
    intros H. injection H as <- <-. reflexivity.
  - destruct (Subprocess_new _ (world st)) as [w [e'|p]]; [|discriminate].
    intros H. injection H as <- <-. reflexivity.
Qed.

(** X9.  When the constructor called by the first query raises, [query]
    raises the same exception without sending the request, and the Analyzer
    is left as it was, without a backend: the next call will invoke the
    constructor again. *)
Theorem failed_construction_leaves_no_backend (self : Analyzer.t)
  (input_str pattern : string) (st : St) (w1 : World) (e : exn) :
  Analyzer.held self = None ->
  Analyzer.construct self (world st) = (w1, inl e) ->
  Analyzer.query self input_str pattern st =
    ({| world := w1; trace := trace st ++ [Analyzer.construction_event self] |},
     (self, inl e)).
Proof. apply query_construct_raises. Qed.

(** X10.  Whatever [query] returns or raises comes from the outside: either
    the backend constructor raised and nothing was sent, or the Analyzer
    holds a backend afterwards and the outcome is that backend's answer to
    this very request.  The call on a missing backend, the [AttributeError]
    of [None.query], never happens. *)
Theorem query_outcome_comes_from_backend (self self' : Analyzer.t)
  (input_str pattern : string) (st st' : St) (r : result string) :
  Analyzer.query self input_str pattern st = (st', (self', r)) ->
  (exists e w, Analyzer.held self = None /\
               Analyzer.construct self (world st) = (w, inl e) /\
               r = inl e /\ self' = self /\ requests_of (trace st') = requests_of (trace st)) \/
  (exists h w, Analyzer.held self' = Some h /\
               Analyzer.backend_query h input_str pattern w = (world st', r) /\
               requests_of (trace st')
                 = requests_of (trace st) ++ [(input_str, pattern)]).
Proof.
  destruct (Analyzer.held self) as [h|] eqn:Hh.
  - rewrite (query_held self h input_str pattern st Hh).
    destruct (Analyzer.backend_query h input_str pattern (world st)) as [w r0] eqn:Hq.
    intros H. injection H as <- <- <-. right. exists h, (world st).
    split; [exact Hh|]. split; [exact Hq|].
    cbn [trace]. rewrite requests_of_app. destruct h; reflexivity.
  - assert (Hs : Analyzer.socket self = None /\ Analyzer.subprocess self = None).
    { unfold Analyzer.held in Hh. destruct (Analyzer.socket self); [discriminate|].
      destruct (Analyzer.subprocess self); [discriminate|]. now split. }
    destruct Hs as [Hs Hp].
    destruct (Analyzer.construct self (world st)) as [w1 [e|h]] eqn:Hc.
    + rewrite (query_construct_raises self _ _ st w1 e Hh Hc).
      intros H. injection H as <- <- <-. left. exists e, w1.
      repeat split; try assumption.
      cbn [trace]. rewrite requests_of_app. unfold Analyzer.construction_event.
      destruct (is_not_None (Analyzer.server self)); simpl; now rewrite app_nil_r.
    + rewrite (query_first self h w1 input_str pattern st Hs Hp Hc).
      destruct (Analyzer.backend_query h input_str pattern w1) as [w r0] eqn:Hq.
      intros H. injection H as <- <- <-. right. exists h, w1.
      split; [now apply held_install|]. split; [exact Hq|].
      cbn [trace]. rewrite !requests_of_app. unfold Analyzer.construction_event.
      destruct (is_not_None (Analyzer.server self)); destruct h; simpl;
        now rewrite app_nil_r.
Qed.

End AnalyzerMore.

Lemma failed_construction_leaves_no_backend_witness :
  Analyzer.held Toy.unreachable_analyzer = None /\
  Analyzer.query Toy.unreachable_analyzer "a" "^EOS$" Toy.st0 =
    ({| world := world Toy.st0;
        trace := [NewSocket (PStr "localhost") PNone PNone] |},
     (Toy.unreachable_analyzer, inl (External "connection refused"))).
Proof.
  assert (H1 : Analyzer.held Toy.unreachable_analyzer = None) by reflexivity.
  assert (H2 : Analyzer.construct Toy.unreachable_analyzer (world Toy.st0)
               = (world Toy.st0, inl (External "connection refused")))
    by reflexivity.
  split; [exact H1|].
  exact (failed_construction_leaves_no_backend Toy.unreachable_analyzer
           "a" "^EOS$" Toy.st0 (world Toy.st0) (External "connection refused") H1 H2).
Defined.

Lemma query_outcome_comes_from_backend_witness :
  exists st' self' r,
    Analyzer.query Toy.local_analyzer "a" "^EOS$" Toy.st0 = (st', (self', r)) /\
    requests_of (trace st') = [("a", "^EOS$")] /\
    Analyzer.held self' = Some Toy.subprocess0.
Proof.
  destruct (Analyzer.query Toy.local_analyzer "a" "^EOS$" Toy.st0)
    as [st' [self' r]] eqn:Hq.
  exists st', self', r. split; [reflexivity|].
  destruct (query_outcome_comes_from_backend _ _ _ _ _ _ _ Hq)
    as [(e & w & _ & Hc & _) | (h & w & Hh & _ & Hr)].
  - vm_compute in Hc. discriminate.
  - split; [exact Hr|]. vm_compute in Hq. injection Hq as _ <- _. reflexivity.
Defined.

(** An Analyzer labelled [socket] with no server starts a subprocess. *)
Example mislabelled_analyzer_sample :
  trace (fst (Analyzer.query Toy.mislabelled_analyzer "a" "^EOS$" Toy.st0))
    = [NewSubprocess (PList ["knp"; "-tab"]); SubprocessQuery "a" "^EOS$"].
Proof. vm_compute. reflexivity. Qed.

(** ** More on parsing *)

Section KNPParseMore.
Context {E : Externals}.

Lemma format_eqb_refl (f : JUMAN_FORMAT) : format_eqb f f = true.
Proof. now apply format_eqb_eq. Qed.

Lemma format_eqb_neq (f g : JUMAN_FORMAT) : f <> g -> format_eqb f g = false.
Proof.
  intros H. destruct (format_eqb f g) eqn:Hfg; [|reflexivity].
  apply format_eqb_eq in Hfg. contradiction.
Qed.

Lemma set_analyzer_same (self : KNP.t) : KNP.set_analyzer self (KNP.analyzer self) = self.
Proof. destruct self. reflexivity. Qed.

(** Whatever a query does, it adds its request to the trace or, raising,
    nothing. *)
Lemma query_requests (self self' : Analyzer.t) (input_str pattern : string)
  (st st' : St) (r : result string) :
  Analyzer.query self input_str pattern st = (st', (self', r)) ->
  exists delta,
    trace st' = (trace st ++ delta)%list /\
    (requests_of delta = [(input_str, pattern)] \/
     (requests_of delta = [] /\ exists e, r = inl e)).
Proof.
  unfold Analyzer.query, Analyzer.ensure_backend, call.
  destruct (negb (Analyzer.truthy (Analyzer.socket self))
            && negb (Analyzer.truthy (Analyzer.subprocess self))).
  - destruct (is_not_None (Analyzer.server self)).
    + destruct (Socket_new _ _ _ (world st)) as [w [e|s]]; simpl.
      * intros H. injection H as <- _ <-. eexists [_]. split; [reflexivity|].
        right. split; [reflexivity|now eexists].
      * destruct (Socket_query s input_str pattern w) as [w' r'].
        intros H. injection H as <- _ _.
        eexists [_; _]. simpl. rewrite <- app_assoc. split; [reflexivity|now left].
    + destruct (Subprocess_new _ (world st)) as [w [e|p]]; simpl.
      * intros H. injection H as <- _ <-. eexists [_]. split; [reflexivity|].
        right. split; [reflexivity|now eexists].
      * destruct (Analyzer.socket self) as [s|].
        -- destruct (Socket_query s input_str pattern w) as [w' r'].
           intros H. injection H as <- _ _.
           eexists [_; _]. simpl. rewrite <- app_assoc. split; [reflexivity|now left].
        -- destruct (Subprocess_query p input_str pattern w) as [w' r'].
           intros H. injection H as <- _ _.
           eexists [_; _]. simpl. rewrite <- app_assoc. split; [reflexivity|now left].
  - destruct (Analyzer.socket self) as [s|].
    + destruct (Socket_query s input_str pattern (world st)) as [w' r'].
      simpl. intros H. injection H as <- _ _. eexists [_]. split; [reflexivity|now left].
    + destruct (Analyzer.subprocess self) as [p|].
      * destruct (Subprocess_query p input_str pattern (world st)) as [w' r'].
        simpl. intros H. injection H as <- _ _.
        eexists [_]. split; [reflexivity|now left].
      * intros H. injection H as <- _ <-. exists []. rewrite app_nil_r.
        split; [reflexivity|]. right. split; [reflexivity|now eexists].
Qed.

Lemma query_blocks_prefix (blocks : list string) (an an' : Analyzer.t)
  (pattern : string) (acc : list BList) (st st' : St) (r : result (list BList)) :
  KNP.query_blocks an pattern blocks acc st = (st', (an', r)) ->
  exists delta n,
    trace st' = (trace st ++ delta)%list /\
    requests_of delta = firstn n (map (fun b => (b, KNP.full_line pattern)) blocks) /\
    (forall blists, r = inr blists -> n = List.length blocks).
Proof.
  revert an acc st.
  induction blocks as [|b blocks IH]; intros an acc st; cbn [KNP.query_blocks].
  - intros H. injection H as <- _ <-. exists [], 0. rewrite app_nil_r.
    repeat split.
  - destruct (Analyzer.query an b (KNP.full_line pattern) st)
      as [st1 [an1 rq]] eqn:Hq.
    destruct (query_requests _ _ _ _ _ _ _ Hq) as (d1 & Ht1 & Hr1).
    destruct rq as [e|response]; cbn iota beta.
    + intros H. injection H as <- _ <-. exists d1.
      destruct Hr1 as [Hr1 | [Hr1 _]].
      * exists 1. split; [exact Ht1|]. split; [exact Hr1|]. discriminate.
      * exists 0. split; [exact Ht1|]. split; [exact Hr1|]. discriminate.
    + destruct Hr1 as [Hr1 | [_ [e He]]]; [|discriminate].
      destruct (BList_new (response ++ "EOS" ++ nl) pattern DEFAULT) as [e|blist].
      * intros H. injection H as <- _ <-. exists d1, 1.
        split; [exact Ht1|]. split; [exact Hr1|]. discriminate.
      * intros H. apply IH in H. destruct H as (d & n & Ht & Hr & Hn).
        exists (d1 ++ d)%list, (S n). split; [|split].
        -- rewrite Ht, Ht1. now rewrite <- app_assoc.
        -- rewrite requests_of_app, Hr1, Hr. reflexivity.
        -- intros blists Hb. simpl. f_equal. now apply (Hn blists).
Qed.

(** X11.  In lattice-all mode nothing is sent before the whole input is
    converted, and the blocks are sent in order until one fails: if the
    converter raises, [parse_juman_result] raises the same exception and
    leaves the state and the Analyzer untouched (no backend is constructed);
    otherwise the requests sent, whatever the outcome, are a prefix of the
    requests of the blocks, all of them when a value is returned. *)
Theorem lattice_all_sends_a_prefix_of_the_blocks (self self' : KNP.t)
  (juman_str : string) (st st' : St) (r : result KNP.parsed) :
  KNP.parse_juman_result self juman_str LATTICE_ALL st = (st', (self', r)) ->
  match KNP.lattice_all2juman_lines juman_str with
  | inl e => st' = st /\ self' = self /\ r = inl e
  | inr blocks =>
      exists delta n,
        trace st' = (trace st ++ delta)%list /\
        requests_of delta
          = firstn n (map (fun b => (b, "^" ++ KNP.pattern self ++ "$")) blocks) /\
        (forall value, r = inr value -> n = List.length blocks)
  end.
Proof.
  unfold KNP.parse_juman_result. rewrite format_eqb_refl.
  destruct (KNP.lattice_all2juman_lines juman_str) as [e|blocks].
  - intros H. now injection H as <- <- <-.
  - destruct (KNP.query_blocks (KNP.analyzer self) (KNP.pattern self) blocks [] st)
      as [st1 [an1 rb]] eqn:Hq.
    destruct (query_blocks_prefix _ _ _ _ _ _ _ _ Hq) as (delta & n & Ht & Hr & Hn).
    destruct rb as [e|blists]; cbn iota beta; intros H; injection H as <- _ <-;
      exists delta, n; (split; [exact Ht|]); (split; [exact Hr|]).
    + discriminate.
    + intros value _. now apply (Hn blists).
Qed.

(** X12.  In lattice-all mode an input without morpheme lines (only
    comments and [EOS] lines) gives the empty list of results and touches
    nothing: no backend is constructed and no query is sent. *)
Theorem lattice_all_without_morphemes (self : KNP.t) (juman_str : string) (st : St) :
  KNP.mrph_lines juman_str = [] ->
  KNP.parse_juman_result self juman_str LATTICE_ALL st
    = (st, (self, inr (KNP.Many []))).
Proof.
  intros Hm. unfold KNP.parse_juman_result. rewrite format_eqb_refl.
  rewrite lattice_all2juman_lines_spec, find_malformed_filter.
  fold (KNP.mrph_lines juman_str). rewrite Hm. cbn [find].
  destruct (fold_step_ok_filter (Py.split LF juman_str) KNP.conv_init KNP.conv_init
              eq_refl eq_refl) as [_ Hj].
  fold (KNP.mrph_lines juman_str) in Hj. rewrite Hm in Hj. simpl in Hj.
  unfold KNP.rank2juman_lines. rewrite Hj. cbn.
  now rewrite set_analyzer_same.
Qed.

End KNPParseMore.

Lemma lattice_all_sends_a_prefix_of_the_blocks_witness :
  exists st' self' r,
    KNP.parse_juman_result Toy.knp Samples.lattice_newline Toy.lattice_all Toy.st0
      = (st', (self', r)) /\
    st' = Toy.st0 /\ self' = Toy.knp /\ r = inl (IndexError 1).
Proof.
  destruct (KNP.parse_juman_result Toy.knp Samples.lattice_newline
              Toy.lattice_all Toy.st0) as [st' [self' r]] eqn:Hp.
  exists st', self', r. split; [reflexivity|].
  pose proof (lattice_all_sends_a_prefix_of_the_blocks _ _ _ _ _ _ Hp) as H.
  assert (Hc : KNP.lattice_all2juman_lines Samples.lattice_newline
               = inl (IndexError 1)) by (vm_compute; reflexivity).
  rewrite Hc in H. exact H.
Defined.

Lemma lattice_all_without_morphemes_witness :
  KNP.parse_juman_result Toy.knp Samples.comment_only Toy.lattice_all Toy.st0
    = (Toy.st0, (Toy.knp, inr (KNP.Many []))).
Proof.
  apply (lattice_all_without_morphemes Toy.knp). vm_compute. reflexivity.
Defined.

(** ** From a sentence to the Analyzer *)

Lemma split_app_sep (sep : ascii) (a b : string) :
  Py.split sep (a ++ String sep b) = (Py.split sep a ++ Py.split sep b)%list.
Proof.
  induction a as [|c a IH]; simpl.
  - rewrite Ascii.eqb_refl. reflexivity.
  - destruct (Ascii.eqb c sep).
    + rewrite IH. reflexivity.
    + rewrite IH. destruct (Py.split sep a) eqn:Ha.
      * exfalso. revert Ha. apply split_not_nil.
      * reflexivity.
Qed.

Lemma one_line_split (p : string) : KNP.one_line p = true -> Py.split LF p = [p].
Proof.
  induction p as [|c p IH]; simpl; intros H.
  - reflexivity.
  - apply andb_true_iff in H. destruct H as [Hc Hp].
    apply negb_true_iff in Hc. rewrite Hc, (IH Hp). reflexivity.
Qed.

Section KNPSentence.
Context {E : Externals} {J : Tokenizer}.

(** X13.  [parse] in a mode other than lattice-all: when the tokenizer
    raises, [parse] raises the same exception and the Analyzer is not used at
    all; when it returns [lines], at most one request is sent, and it is
    [lines] immediately followed by the end pattern, to be read up to a line
    matching [^pattern$]; exactly that request was sent whenever [parse]
    returns a value. *)
Theorem parse_sends_tokens_and_pattern (self self' : KNP.t) (sentence : string)
  (juman_format : JUMAN_FORMAT) (st st' : St) (r : result KNP.parsed) :
  juman_format <> LATTICE_ALL ->
  KNP.parse self sentence juman_format st = (st', (self', r)) ->
  match Juman_juman_lines (KNP.juman self) sentence (world st) with
  | (w, inl e) => r = inl e /\ trace st' = trace st /\ self' = self /\ world st' = w
  | (w, inr lines) =>
      exists delta,
        trace st' = (trace st ++ delta)%list /\
        (requests_of delta
           = [(lines ++ KNP.pattern self, "^" ++ KNP.pattern self ++ "$")] \/
         (requests_of delta = [] /\ exists e, r = inl e))
  end.
Proof.
  intros Hfmt. unfold KNP.parse.
  destruct (Juman_juman_lines (KNP.juman self) sentence (world st)) as [w [e|lines]].
  - intros H. injection H as <- <- <-. now repeat split.
  - unfold KNP.parse_juman_result. rewrite (format_eqb_neq _ _ Hfmt).
    destruct (Analyzer.query (KNP.analyzer self) (lines ++ KNP.pattern self)
                (KNP.full_line (KNP.pattern self))
                {| world := w; trace := trace st |})
      as [st1 [an1 rq]] eqn:Hq.
    destruct (query_requests _ _ _ _ _ _ _ Hq) as (delta & Ht & Hr).
    destruct rq as [e|response]; cbn iota beta; intros H; injection H as <- _ <-;
      exists delta; (split; [exact Ht|]).
    + destruct Hr as [Hr | [Hr _]]; [now left|right].
      split; [exact Hr|now eexists].
    + destruct Hr as [Hr | [_ [e He]]]; [now left|discriminate].
Qed.

(** X14.  Lattice-all mode works only with the end pattern [EOS].  [parse]
    appends [self.pattern] to the tokenizer's output, while the converter
    skips only a line that is exactly [EOS]: when the output ends with a
    newline and the pattern is some other one-line string that does not
    start with [#] and has fewer than 18 tab-separated fields, the pattern is
    taken for a record and [parse] raises [IndexError] without constructing a
    backend or sending anything. *)
Theorem parse_lattice_all_with_other_pattern (self : KNP.t) (sentence lines : string)
  (st : St) (w : World) :
  Juman_juman_lines (KNP.juman self) sentence (world st) = (w, inr (lines ++ nl)) ->
  KNP.one_line (KNP.pattern self) = true ->
  Py.startswith "#" (KNP.pattern self) = false ->
  KNP.pattern self <> "EOS" ->
  KNP.n_fields (KNP.pattern self) < 18 ->
  exists i,
    KNP.parse self sentence LATTICE_ALL st
      = ({| world := w; trace := trace st |}, (self, inl (IndexError i))).
Proof.
  intros Hj Hone Hc He Hn. unfold KNP.parse. rewrite Hj.
  unfold KNP.parse_juman_result. rewrite format_eqb_refl.
  destruct (malformed_line_raises ((lines ++ nl) ++ KNP.pattern self)
              (KNP.pattern self)) as (i & Hi).
  - unfold nl. rewrite string_app_assoc. simpl.
    rewrite split_app_sep, (one_line_split _ Hone).
    apply in_or_app. right. now left.
  - unfold KNP.malformed, KNP.is_mrph_line. rewrite Hc.
    apply String.eqb_neq in He. rewrite He. simpl. now apply Nat.ltb_lt.
  - exists i. rewrite Hi. reflexivity.
Qed.

End KNPSentence.

Lemma parse_sends_tokens_and_pattern_witness :
  Toy.default <> Toy.lattice_all /\
  exists st' self' r delta,
    Toy.parse_toy Toy.knp "hana" Toy.default Toy.st0 = (st', (self', r)) /\
    trace st' = (trace Toy.st0 ++ delta)%list /\
    requests_of delta = [("hana" ++ nl ++ "EOS", "^EOS$")].
Proof.
  assert (Hf : Toy.default <> Toy.lattice_all) by discriminate.
  split; [exact Hf|].
  destruct (Toy.parse_toy Toy.knp "hana" Toy.default Toy.st0)
    as [st' [self' r]] eqn:Hp.
  pose proof (parse_sends_tokens_and_pattern (J := Toy.tokenizer)
                _ _ _ _ _ _ _ Hf Hp) as H.
  cbn in H. destruct H as (delta & Ht & Hr).
  exists st', self', r, delta. split; [reflexivity|]. split; [exact Ht|].
  destruct Hr as [Hr | [_ [e He]]]; [exact Hr|].
  vm_compute in Hp. injection Hp as _ _ <-. discriminate.
Defined.

Lemma parse_lattice_all_with_other_pattern_witness :
  exists i,
    Toy.parse_toy Toy.knp_end "hana" Toy.lattice_all Toy.st0
      = (Toy.st0, (Toy.knp_end, inl (IndexError i))).
Proof.
  apply (parse_lattice_all_with_other_pattern (J := Toy.tokenizer)
           Toy.knp_end "hana" "hana" Toy.st0 (world Toy.st0)).
  - reflexivity.
  - reflexivity.
  - reflexivity.
  - discriminate.
  - vm_compute. lia.
Defined.

(** ** A KNP object and its backend over several calls *)

Section BackendOverCalls.
Context {E : Externals}.
Local Open Scope list_scope.

Lemma constructions_snoc_query (evs : list event) (h : Analyzer.handle)
  (request : string * string) :
  Analyzer.constructions (evs ++ [Analyzer.query_event h request])
    = Analyzer.constructions evs.
Proof.
  unfold Analyzer.constructions. rewrite filter_app.
  destruct h; simpl; apply app_nil_r.
Qed.

Lemma query_blocks_held (blocks : list string) (an an' : Analyzer.t)
  (h : Analyzer.handle) (pattern : string) (acc : list BList) (st st' : St)
  (r : result (list BList)) :
  Analyzer.held an = Some h ->
  KNP.query_blocks an pattern blocks acc st = (st', (an', r)) ->
  an' = an /\
  Analyzer.constructions (trace st') = Analyzer.constructions (trace st).
Proof.
  intros Hh. revert acc st.
  induction blocks as [|b blocks IH]; intros acc st; cbn [KNP.query_blocks].
  - intros H. injection H as <- <- _. now split.
  - rewrite (query_held an h b (KNP.full_line pattern) st Hh).
    destruct (Analyzer.backend_query h b (KNP.full_line pattern) (world st))
      as [w [e|response]].
    + intros H. injection H as <- <- _. split; [reflexivity|].
      cbn [trace]. apply constructions_snoc_query.
    + destruct (BList_new (response ++ "EOS" ++ nl)%string pattern DEFAULT)
        as [e|blist].
      * intros H. injection H as <- <- _. split; [reflexivity|].
        cbn [trace]. apply constructions_snoc_query.
      * intros H. apply IH in H. destruct H as [-> Hc]. split; [reflexivity|].
        rewrite Hc. cbn [trace]. apply constructions_snoc_query.
Qed.

(** X17.  Once the Analyzer of a KNP object holds a backend,
    [parse_juman_result] constructs nothing more, in either mode and
    whatever the outcome, and leaves the KNP object exactly as it was: every
    later parse goes to the same backend. *)
Theorem parse_keeps_the_backend (self self' : KNP.t) (h : Analyzer.handle)
  (juman_str : string) (juman_format : JUMAN_FORMAT) (st st' : St)
  (r : result KNP.parsed) :
  Analyzer.held (KNP.analyzer self) = Some h ->
  KNP.parse_juman_result self juman_str juman_format st = (st', (self', r)) ->
  self' = self /\
  Analyzer.constructions (trace st') = Analyzer.constructions (trace st).
Proof.
  intros Hh. unfold KNP.parse_juman_result.
  destruct (format_eqb juman_format LATTICE_ALL).
  - destruct (KNP.lattice_all2juman_lines juman_str) as [e|blocks].
    + intros H. injection H as <- <- _. now split.
    + destruct (KNP.query_blocks (KNP.analyzer self) (KNP.pattern self) blocks [] st)
        as [st1 [an1 rb]] eqn:Hq.
      destruct (query_blocks_held _ _ _ _ _ _ _ _ _ Hh Hq) as [-> Hc].
      destruct rb; intros H; injection H as <- <- _;
        (split; [apply set_analyzer_same|exact Hc]).
  - rewrite (query_held _ h _ _ st Hh).
    destruct (Analyzer.backend_query h juman_str (KNP.full_line (KNP.pattern self))
                (world st)) as [w [e|response]];
      intros H; injection H as <- <- _;
      (split; [apply set_analyzer_same|cbn [trace]; apply constructions_snoc_query]).
Qed.

(** X18.  While the backend constructor keeps raising, every call of
    [query] invokes it again: after N calls on an Analyzer without a backend
    the trace has gained N construction events and no request, every call
    has raised, and the Analyzer still holds nothing. *)
Theorem every_call_retries_a_failing_constructor (self : Analyzer.t)
  (requests : list (string * string)) (st : St) :
  Analyzer.held self = None ->
  (forall w, exists w' e, Analyzer.construct self w = (w', inl e)) ->
  exists st' outcomes,
    Analyzer.queries self requests st = (st', (self, outcomes)) /\
    trace st' = trace st ++ repeat (Analyzer.construction_event self)
                                   (List.length requests) /\
    Forall (fun o => exists e, o = inl e) outcomes /\
    List.length outcomes = List.length requests.
Proof.
  intros Hh Hfail. revert st.
  induction requests as [|[i p] requests IH]; intros st; simpl.
  - exists st, []. rewrite app_nil_r. repeat split. constructor.
  - destruct (Hfail (world st)) as (w1 & e & Hc).
    rewrite (query_construct_raises self i p st w1 e Hh Hc).
    destruct (IH {| world := w1;
                    trace := trace st ++ [Analyzer.construction_event self] |})
      as (st' & outs & Hq & Ht & Ho & Hl).
    rewrite Hq. exists st', (inl e :: outs). split; [reflexivity|]. split; [|split].
    + rewrite Ht. cbn [trace]. now rewrite <- app_assoc.
    + constructor; [now exists e|exact Ho].
    + simpl. now rewrite Hl.
Qed.

End BackendOverCalls.

Lemma parse_keeps_the_backend_witness :
  exists st1 knp1 r1 st2 knp2 r2,
    KNP.parse_juman_result Toy.knp Samples.lattice Toy.lattice_all Toy.st0
      = (st1, (knp1, r1)) /\
    KNP.parse_juman_result knp1 Samples.single_rank Toy.default st1
      = (st2, (knp2, r2)) /\
    knp2 = knp1 /\
    Analyzer.constructions (trace st2) = Analyzer.constructions (trace st1).
Proof.
  destruct (KNP.parse_juman_result Toy.knp Samples.lattice Toy.lattice_all Toy.st0)
    as [st1 [knp1 r1]] eqn:H1.
  destruct (KNP.parse_juman_result knp1 Samples.single_rank Toy.default st1)
    as [st2 [knp2 r2]] eqn:H2.
  exists st1, knp1, r1, st2, knp2, r2.
  split; [first [exact H1 | reflexivity]|].
  split; [first [exact H2 | reflexivity]|].
  assert (Hh : Analyzer.held (KNP.analyzer knp1) = Some Toy.subprocess0).
  { vm_compute in H1. injection H1 as _ <- _. reflexivity. }
  exact (parse_keeps_the_backend knp1 knp2 Toy.subprocess0 _ _ st1 st2 r2 Hh H2).
Defined.

Lemma every_call_retries_a_failing_constructor_witness :
  exists st' outcomes,
    Analyzer.queries Toy.unreachable_analyzer Toy.three_requests Toy.st0
      = (st', (Toy.unreachable_analyzer, outcomes)) /\
    trace st' = repeat (NewSocket (PStr "localhost") PNone PNone) 3.
Proof.
  destruct (every_call_retries_a_failing_constructor Toy.unreachable_analyzer
              Toy.three_requests Toy.st0) as (st' & outs & Hq & Ht & _).
  - reflexivity.
  - intros w. exists w, (External "connection refused"). reflexivity.
  - exists st', outs. split; [exact Hq|]. rewrite Ht. reflexivity.
Defined.

(** ** The lines of a block *)

Lemma one_line_app (a b : string) :
  KNP.one_line (a ++ b) = KNP.one_line a && KNP.one_line b.
Proof.
  induction a as [|c a IH]; simpl; [reflexivity|].
  rewrite IH. now rewrite andb_assoc.
Qed.

Lemma split_lines_one_line (s : string) :
  Forall (fun l => KNP.one_line l = true) (Py.split LF s).
Proof.
  induction s as [|c s IH]; simpl.
  - now repeat constructor.
  - destruct (Ascii.eqb c LF) eqn:Hc.
    + now constructor.
    + destruct (Py.split LF s) as [|w ws]; simpl.
      * repeat constructor. simpl. now rewrite Hc.
      * inversion IH as [|? ? Hw Hws]; subst.
        constructor; [|exact Hws]. simpl. now rewrite Hc, Hw.
Qed.

Lemma split_fields_one_line (sep : ascii) (s : string) :
  KNP.one_line s = true ->
  Forall (fun l => KNP.one_line l = true) (Py.split sep s).
Proof.
  induction s as [|c s IH]; simpl; intros H.
  - now repeat constructor.
  - apply andb_true_iff in H. destruct H as [Hc Hs]. specialize (IH Hs).
    destruct (Ascii.eqb c sep).
    + now constructor.
    + destruct (Py.split sep s) as [|w ws]; simpl.
      * repeat constructor. simpl. now rewrite Hc.
      * inversion IH as [|? ? Hw Hws]; subst.
        constructor; [|exact Hws]. simpl. now rewrite Hc, Hw.
Qed.

Lemma join_one_line (sep : string) (l : list string) :
  KNP.one_line sep = true ->
  Forall (fun x => KNP.one_line x = true) l ->
  KNP.one_line (Py.join sep l) = true.
Proof.
  intros Hsep. unfold Py.join. induction 1 as [|x l Hx Hl IH]; simpl.
  - reflexivity.
  - destruct l as [|y l]; [exact Hx|].
    rewrite !one_line_app, Hx, Hsep. exact IH.
Qed.

Lemma index_In (l : list string) (i : nat) (x : string) :
  Py.index l i = inr x -> In x l.
Proof.
  unfold Py.index. destruct (nth_error l i) eqn:Hn; [|discriminate].
  intros H. injection H as <-. eapply nth_error_In, Hn.
Qed.

Lemma lattice2juman_line_one_line (values : list string) (flag : bool) (x : string) :
  Forall (fun v => KNP.one_line v = true) values ->
  KNP.lattice2juman_line values flag = inr x ->
  KNP.one_line x = true.
Proof.
  intros Hall. rewrite Forall_forall in Hall. unfold KNP.lattice2juman_line.
  repeat match goal with
  | |- context [Py.index values ?i] =>
      let v := fresh "v" in
      let Hv := fresh "Hv" in
      destruct (Py.index values i) as [?|v] eqn:Hv; cbn [bind];
      [discriminate|apply index_In, Hall in Hv]
  end.
  intros H. injection H as <-.
  assert (Hj : KNP.one_line
                 (Py.join " "
                    [v1; v2; v3; v4; v5; v6; v7; v8; v9; v10; v11;
                     dquote ++ Py.join " "
                                 ([(KNP.daihyo ++ v)%string] ++ Py.split "|"%char v0)%list
                     ++ dquote]) = true).
  { assert (Hf : KNP.one_line
                   (Py.join " "
                      ([(KNP.daihyo ++ v)%string] ++ Py.split "|"%char v0)%list) = true).
    { apply join_one_line; [reflexivity|]. constructor.
      - rewrite one_line_app, Hv. reflexivity.
      - now apply split_fields_one_line. }
    apply join_one_line; [reflexivity|].
    repeat (constructor; [assumption|]).
    constructor; [|constructor].
    rewrite !one_line_app, Hf. reflexivity. }
  destruct flag; [|exact Hj]. refine (eq_trans _ Hj). reflexivity.
Qed.

Lemma split_join_lines (ls : list string) :
  ls <> [] ->
  Forall (fun l => KNP.one_line l = true) ls ->
  Py.split LF (Py.join nl ls) = ls.
Proof.
  unfold Py.join. intros Hne Hall.
  induction Hall as [|x ls Hx Hls IH]; [contradiction|].
  destruct ls as [|y ls].
  - simpl. now apply one_line_split.
  - change (String.concat nl (x :: y :: ls))
      with (x ++ String LF (String.concat nl (y :: ls))).
    rewrite split_app_sep, (one_line_split x Hx), IH by discriminate.
    reflexivity.
Qed.

Lemma block_split (c : string) (ls : list string) :
  KNP.one_line c = true ->
  ls <> [] ->
  Forall (fun l => KNP.one_line l = true) ls ->
  Py.split LF (KNP.block c ls) = (c :: ls ++ ["EOS"])%list.
Proof.
  intros Hc Hne Hall. unfold KNP.block.
  change (c ++ nl ++ Py.join nl ls ++ nl ++ "EOS")
    with (c ++ String LF (Py.join nl ls ++ String LF "EOS")).
  rewrite !split_app_sep, (one_line_split c Hc), (split_join_lines ls Hne Hall).
  reflexivity.
Qed.

Lemma tracked_comment_one_line (s : string) :
  KNP.one_line (KNP.tracked_comment s) = true.
Proof.
  unfold KNP.tracked_comment.
  assert (H : forall lines c,
             Forall (fun l => KNP.one_line l = true) lines ->
             KNP.one_line c = true ->
             KNP.one_line
               (fold_left (fun c line => if Py.startswith "#" line then line else c)
                          lines c) = true).
  { induction lines as [|l lines IH]; intros c Hall Hc; simpl; [exact Hc|].
    inversion Hall as [|? ? Hl Hls]; subst. apply IH; [exact Hls|].
    now destruct (Py.startswith "#" l). }
  apply H; [apply split_lines_one_line|reflexivity].
Qed.

Lemma rank_lines_one_line (s rank : string) :
  KNP.well_formed s ->
  Forall (fun l => KNP.one_line l = true)
         (KNP.rank_lines rank (KNP.marked_lines s)).
Proof.
  intros Hwf. apply Forall_forall. intros x Hx.
  unfold KNP.rank_lines in Hx. apply in_flat_map in Hx.
  destruct Hx as ([l f] & Hlf & Hx). apply repeat_spec in Hx. subst x. simpl.
  unfold KNP.marked_lines in Hlf. apply in_combine_l in Hlf.
  unfold KNP.well_formed in Hwf. rewrite Forall_forall in Hwf.
  pose proof (reconstructed_spec l f (Hwf l Hlf)) as Hr.
  apply (lattice2juman_line_one_line _ _ _) in Hr; [exact Hr|].
  apply split_fields_one_line.
  unfold KNP.mrph_lines in Hlf. apply filter_In in Hlf. destruct Hlf as [Hlf _].
  pose proof (split_lines_one_line s) as Hs. rewrite Forall_forall in Hs.
  now apply Hs.
Qed.

Lemma rank_lines_not_nil (s rank : string) :
  In rank (KNP.distinct_ranks s) ->
  KNP.rank_lines rank (KNP.marked_lines s) <> [].
Proof.
  unfold KNP.distinct_ranks, KNP.all_ranks. rewrite nodup_In, in_flat_map.
  intros (l & Hl & Hr).
  assert (Hm : exists f, In (l, f) (KNP.marked_lines s)).
  { unfold KNP.marked_lines, KNP.mrph_ids.
    generalize "0". revert Hl. generalize (KNP.mrph_lines s) as ls.
    induction ls as [|l0 ls IH]; intros Hl p; [contradiction|].
    simpl. destruct Hl as [->|Hl].
    - eexists. left. reflexivity.
    - destruct (IH Hl (if negb (KNP.mrph_id l0 =? p)%string
                       then KNP.mrph_id l0 else p)) as [f Hf].
      exists f. right. exact Hf. }
  destruct Hm as [f Hf]. intros Hnil.
  assert (Hin : In (KNP.reconstructed l f) (KNP.rank_lines rank (KNP.marked_lines s))).
  { unfold KNP.rank_lines. apply in_flat_map. exists (l, f). split; [exact Hf|].
    simpl. apply (count_occ_In string_dec) in Hr.
    destruct (count_occ string_dec (KNP.line_ranks l) rank); [lia|]. now left. }
  rewrite Hnil in Hin. contradiction.
Qed.

(** X19.  Every block of a well-formed lattice splits back at its newlines
    into the comment line, the flat lines filed under the rank, at least
    one, and the line [EOS], with nothing else: no field of a record can
    carry a newline into a block, and no block is empty. *)
Theorem blocks_split_into_their_lines (s : string) :
  KNP.well_formed s ->
  exists blocks ranks,
    KNP.lattice_all2juman_lines s = inr blocks /\
    Permutation ranks (KNP.distinct_ranks s) /\
    map (Py.split LF) blocks =
      map (fun rank =>
             KNP.tracked_comment s
               :: KNP.rank_lines rank (KNP.marked_lines s) ++ ["EOS"])%list
          ranks /\
    Forall (fun rank => KNP.rank_lines rank (KNP.marked_lines s) <> []) ranks.
Proof.
  intros Hwf.
  destruct (lattice_all2juman_lines_ok s Hwf) as (ranks & Hb & Hp & _).
  exists (map (KNP.rank_block s) ranks), ranks.
  assert (Hne : Forall (fun rank => KNP.rank_lines rank (KNP.marked_lines s) <> [])
                       ranks).
  { apply Forall_forall. intros rank Hr. apply rank_lines_not_nil.
    apply (Permutation_in _ Hp), Hr. }
  split; [exact Hb|]. split; [exact Hp|]. split; [|exact Hne].
  rewrite map_map. apply map_ext_in. intros rank Hr.
  unfold KNP.rank_block. apply block_split.
  - apply tracked_comment_one_line.
  - rewrite Forall_forall in Hne. now apply Hne.
  - now apply rank_lines_one_line.
Qed.

Lemma blocks_split_into_their_lines_witness :
  KNP.well_formed Samples.lattice /\
  exists blocks ranks,
    KNP.lattice_all2juman_lines Samples.lattice = inr blocks /\
    map (Py.split LF) blocks =
      map (fun rank =>
             KNP.tracked_comment Samples.lattice
               :: KNP.rank_lines rank (KNP.marked_lines Samples.lattice) ++ ["EOS"])%list
          ranks.
Proof.
  assert (Hwf : KNP.well_formed Samples.lattice)
    by (apply well_formedb_true; vm_compute; reflexivity).
  split; [exact Hwf|].
  destruct (blocks_split_into_their_lines Samples.lattice Hwf)
    as (blocks & ranks & Hb & _ & Hm & _).
  exists blocks, ranks. split; assumption.
Defined.
